(** * modsynth/db-module: connection manager and generic repository

    A shallow embedding of [package db] (the connection manager) and of
    [package repository] (the generic repository over [gorm.DB]), with the
    properties the specification states about them.

    The two packages are thin: every operation hands its arguments to the
    GORM client or to [database/sql].  Those libraries are not part of this
    repository.  They appear here as small executable reference models
    ([Module sql], [Module gorm]) that follow the behaviour the repository's
    own tests rely on; the functions of [Module db] and [Module repository]
    are transcribed from the Go sources line by line. *)

From stdpp Require Import base option list gmap strings.
From Stdlib Require Import ZArith Lia.

Local Open Scope string_scope.
Local Open Scope list_scope.
Local Open Scope Z_scope.

(** ** Go's [int] and [time.Duration] *)

(** [int] is 64 bits wide on the platforms the module is built for; the
    arithmetic of the language wraps around. *)
Definition int_min : Z := - 2 ^ 63.
Definition int_max : Z := 2 ^ 63 - 1.

Definition int_wrap (z : Z) : Z := (z + 2 ^ 63) mod 2 ^ 64 - 2 ^ 63.

Definition int_sub (a b : Z) : Z := int_wrap (a - b).
Definition int_mul (a b : Z) : Z := int_wrap (a * b).

Definition is_int (z : Z) : Prop := int_min <= z <= int_max.

Module time.
(** A [time.Duration] counts nanoseconds in an [int64]. *)
Definition Nanosecond : Z := 1.
Definition Second : Z := 1000000000 * Nanosecond.
Definition Minute : Z := 60 * Second.
Definition Hour : Z := 60 * Minute.
End time.

(** ** Error values *)

Module errors.

(** The error values that flow through the two packages.  Package-level
    variables made by [errors.New] are compared by identity in Go, so each
    of them is a constructor of its own; an error made by [errors.New]
    inside a function body is kept with its text, [fmt.Errorf] with [%w]
    keeps the wrapped error, and whatever a database driver reports is a
    [driverError]. *)
Inductive error : Type :=
| ErrRecordNotFound                       (* gorm.ErrRecordNotFound *)
| ErrInvalidTransaction                   (* gorm.ErrInvalidTransaction *)
| ErrInvalidDB                            (* gorm.ErrInvalidDB *)
| ErrDuplicateKey                         (* db.ErrDuplicateKey *)
| ErrNotConnected                         (* db.ErrNotConnected *)
| Canceled                                (* context.Canceled *)
| DeadlineExceeded                        (* context.DeadlineExceeded *)
| errorString (text : string)             (* errors.New(text) *)
| wrapError (prefix : string) (err : error) (* fmt.Errorf(prefix + ": %w", err) *)
| driverError (text : string).            (* raised by the driver *)

Fixpoint error_eqb (a b : error) : bool :=
  match a, b with
  | ErrRecordNotFound, ErrRecordNotFound
  | ErrInvalidTransaction, ErrInvalidTransaction
  | ErrInvalidDB, ErrInvalidDB
  | ErrDuplicateKey, ErrDuplicateKey
  | ErrNotConnected, ErrNotConnected
  | Canceled, Canceled
  | DeadlineExceeded, DeadlineExceeded => true
  | errorString s, errorString t => bool_decide (s = t)
  | wrapError p e, wrapError q f => bool_decide (p = q) && error_eqb e f
  | driverError s, driverError t => bool_decide (s = t)
  | _, _ => false
  end.

(** [err.Error()] *)
Fixpoint Error (e : error) : string :=
  match e with
  | ErrRecordNotFound => "record not found"
  | ErrInvalidTransaction => "invalid transaction"
  | ErrInvalidDB => "invalid db"
  | ErrDuplicateKey => "duplicate key error"
  | ErrNotConnected => "database not connected"
  | Canceled => "context canceled"
  | DeadlineExceeded => "context deadline exceeded"
  | errorString text => text
  | wrapError prefix err => prefix +:+ ": " +:+ Error err
  | driverError text => text
  end.

(** [errors.Is(err, target)]: [err] or an error it wraps is [target]. *)
Fixpoint Is (err target : error) : bool :=
  error_eqb err target ||
  match err with
  | wrapError _ inner => Is inner target
  | _ => false
  end.

End errors.
Export errors.

Module context.
(** A [context.Context], as far as the packages look at it: the error
    [ctx.Err()] reports once the context is cancelled or past its
    deadline, [None] while it is live. *)
Record Context : Type := { Err : option error }.

Definition Background : Context := {| Err := None |}.
Definition cancelled : Context := {| Err := Some Canceled |}.
End context.
Export context.

(** ** [database/sql]: the connection pool behind a handle *)

Module sql.

(** The pool setters the connection manager calls.  The pool keeps the
    calls it received, oldest first, so that what was handed to it can be
    read back. *)
Inductive PoolCall : Type :=
| SetMaxOpenConns (n : Z)
| SetMaxIdleConns (n : Z)
| SetConnMaxLifetime (d : Z)
| SetConnMaxIdleTime (d : Z).

Record DBStats : Type := {
  MaxOpenConnections : Z;
  OpenConnections : Z;
  InUse : Z;
  Idle : Z;
  WaitCount : Z;
  WaitDuration : Z;
  MaxIdleClosed : Z;
  MaxLifetimeClosed : Z
}.

(** The state of one [*sql.DB]. *)
Record DB : Type := {
  calls : list PoolCall;
  Stats : DBStats
}.

Definition call (c : PoolCall) (p : DB) : DB :=
  {| calls := calls p ++ [c]; Stats := Stats p |}.

(** What the server and the network do when the pool is asked for a
    liveness check is outside the program: a ping may fail or succeed,
    and it may open, keep or drop connections.  The connection manager is
    verified against every such behaviour. *)
Class Driver : Type := {
  PingContext : Context -> DB -> DB * option error
}.

(** Releasing the pool is the driver's work as well: [Close] may report an
    error of its own. *)
Class Closer : Type := {
  Close : DB -> DB * option error
}.

End sql.

(** ** GORM: the handle and its chainable methods *)

Module gorm.

(** An argument of a filter expression or a primary key ([interface{}]
    in the source). *)
Inductive Value : Type :=
| VInt (z : Z)
| VStr (s : string).

#[global] Instance Value_eq_dec : EqDecision Value.
Proof. solve_decision. Defined.

(** A [Where(query, args...)] clause. *)
Record Cond : Type := { query : string; args : list Value }.

Inductive ConnPool : Type :=
| SqlDB        (* the pool is a [*sql.DB] *)
| OtherPool.   (* any other implementation of the interface *)

(** [gorm.Config], the two fields the connection manager sets. *)
Record Config : Type := {
  Logger : Z;          (* logger.Default.LogMode(level) *)
  NowFuncUTC : bool    (* NowFunc returns time.Now().UTC() *)
}.

(** A [*gorm.DB]: the session configuration and the statement under
    construction.  [Offset] and [Limit] are the two fields of GORM's
    limit clause: the offset is an [int], the limit a pointer that is nil
    until [Limit] is called. *)
Record DB : Type := {
  config : Config;
  pool : ConnPool;
  ctx : Context;
  model : bool;
  wheres : list Cond;
  offset : Z;
  limit : option Z
}.

Definition WithContext (db : DB) (c : Context) : DB :=
  {| config := config db; pool := pool db; ctx := c; model := model db;
     wheres := wheres db; offset := offset db; limit := limit db |}.

Definition Model (db : DB) : DB :=
  {| config := config db; pool := pool db; ctx := ctx db; model := true;
     wheres := wheres db; offset := offset db; limit := limit db |}.

Definition Where (db : DB) (q : string) (a : list Value) : DB :=
  {| config := config db; pool := pool db; ctx := ctx db; model := model db;
     wheres := wheres db ++ [ {| query := q; args := a |} ];
     offset := offset db; limit := limit db |}.

Definition Offset (db : DB) (n : Z) : DB :=
  {| config := config db; pool := pool db; ctx := ctx db; model := model db;
     wheres := wheres db; offset := n; limit := limit db |}.

Definition Limit (db : DB) (n : Z) : DB :=
  {| config := config db; pool := pool db; ctx := ctx db; model := model db;
     wheres := wheres db; offset := offset db; limit := Some n |}.

(** [db.DB()]: the [*sql.DB] behind the handle, or [ErrInvalidDB] when
    the pool is of another kind.  [p] is the state of the pool object the
    handle refers to. *)
Definition DB' (db : DB) (p : option sql.DB) : error + sql.DB :=
  match pool db, p with
  | SqlDB, Some sqlDB => inr sqlDB
  | _, _ => inl ErrInvalidDB
  end.

(** A [gorm.Dialector], by what opening it yields: the error of
    [Initialize] when no session can be established, and the pool it
    installs ([Some p] for a [*sql.DB] in state [p]). *)
Record Dialector : Type := {
  Initialize : option error;
  ConnPool_of : option sql.DB
}.

(** [gorm.Open(dialector, config)] *)
Definition Open (dialector : Dialector) (cfg : Config) : error + DB :=
  match Initialize dialector with
  | Some err => inl err
  | None =>
      inr {| config := cfg;
             pool := match ConnPool_of dialector with
                     | Some _ => SqlDB
                     | None => OtherPool
                     end;
             ctx := Background; model := false; wheres := [];
             offset := 0; limit := None |}
  end.

(** *** The statements a handle executes

    The repository hands every operation to GORM, which runs it on the
    table of the record type.  The table is a list of rows in the
    backend's own order (insertion order).  What follows is a reference
    semantics of the finisher methods the repository calls, for one table
    and one client at a time.  It covers the behaviour the repository's
    tests exercise: generated keys are written back by [Create], unique
    indexes reject duplicates, [First] reports an empty result as
    [ErrRecordNotFound] while [Find] does not, a cancelled context aborts
    the statement, and a transaction whose unit of work fails leaves the
    table as it was. *)

(** The field mapping GORM derives from a record type [T]: its primary
    key, its unique indexes and the rows a filter expression selects
    ([None] for an expression the backend cannot evaluate on [T]). *)
Class Schema (T : Type) : Type := {
  zero : T;
  pk : T -> Z;
  set_pk : Z -> T -> T;
  unique_indexes : list (string * (T -> Value));
  filter_of : string -> list Value -> option (T -> bool);
  pk_set_pk : forall k t, pk (set_pk k t) = k
}.

Section Client.
Context {T : Type} `{Schema T}.

(** The key an insert generates when the record carries none. *)
Definition next_id (rows : list T) : Z :=
  1 + foldr (fun x m => Z.max (pk x) m) 0 rows.

(** The constraint a new row would violate, if any. *)
Definition violated (row : T) (rows : list T) : option string :=
  if existsb (fun x => bool_decide (pk x = pk row)) rows
  then Some "primary key"
  else fst <$> List.find
         (fun ix => existsb (fun x => bool_decide (snd ix x = snd ix row)) rows)
         unique_indexes.

(** The conjunction of the statement's [Where] clauses. *)
Fixpoint conds_filter (cs : list Cond) : option (T -> bool) :=
  match cs with
  | [] => Some (fun _ => true)
  | c :: cs =>
      match filter_of (query c) (args c), conds_filter cs with
      | Some p, Some q => Some (fun x => p x && q x)
      | _, _ => None
      end
  end.

Fixpoint insert_by_pk (x : T) (l : list T) : list T :=
  match l with
  | [] => [x]
  | y :: l' => if pk x <=? pk y then x :: l else y :: insert_by_pk x l'
  end.

(** [ORDER BY] the primary key, rows with equal keys in table order. *)
Definition order_by_pk (l : list T) : list T := foldr insert_by_pk [] l.

(** The limit clause: an [OFFSET] is emitted when the offset is
    positive, a [LIMIT] when a limit was set and is not negative. *)
Definition apply_offset (n : Z) (l : list T) : list T :=
  if 0 <? n then drop (Z.to_nat n) l else l.

Definition apply_limit (n : option Z) (l : list T) : list T :=
  match n with
  | Some n => if 0 <=? n then take (Z.to_nat n) l else l
  | None => l
  end.

(** [db.Create(value)]: the store after the insert, the record with the
    key written back, and [.Error]. *)
Definition Create (db : DB) (value : T) (rows : list T)
    : list T * T * option error :=
  match Err (ctx db) with
  | Some e => (rows, value, Some e)
  | None =>
      let id := if decide (pk value = 0) then next_id rows else pk value in
      let row := set_pk id value in
      match violated row rows with
      | Some ix =>
          (rows, value, Some (driverError ("UNIQUE constraint failed: " +:+ ix)))
      | None => (rows ++ [row], row, None)
      end
  end.

(** [db.First(dest, conds...)]: the first row in primary-key order that
    satisfies the [Where] clauses, the key given in [conds] and, when
    [dest] already carries a key, that key too. *)
Definition First (db : DB) (dest : T) (conds : option Z) (rows : list T)
    : T * option error :=
  match Err (ctx db) with
  | Some e => (dest, Some e)
  | None =>
      match conds_filter (wheres db) with
      | None => (dest, Some (driverError "SQL logic error"))
      | Some p =>
          let by_id x :=
            match conds with
            | Some id => bool_decide (pk x = id)
            | None => true
            end in
          let by_dest x :=
            bool_decide (pk dest = 0) || bool_decide (pk x = pk dest) in
          let found :=
            order_by_pk
              (List.filter (fun x => p x && by_id x && by_dest x) rows) in
          match head (apply_offset (offset db) found) with
          | Some row => (row, None)
          | None => (dest, Some ErrRecordNotFound)
          end
      end
  end.

(** [db.Find(&dest)] *)
Definition Find (db : DB) (rows : list T) : list T * option error :=
  match Err (ctx db) with
  | Some e => ([], Some e)
  | None =>
      match conds_filter (wheres db) with
      | None => ([], Some (driverError "SQL logic error"))
      | Some p =>
          (apply_limit (limit db)
             (apply_offset (offset db) (List.filter p rows)),
           None)
      end
  end.

(** [db.Count(&count)]: the counting query keeps the clauses of the
    statement, the limit clause among them.  Its result is one row holding
    the number of selected rows; an [OFFSET], or a [LIMIT] of zero, removes
    that row again, and [count] is 0 when no row comes back. *)
Definition Count (db : DB) (rows : list T) : Z * option error :=
  match Err (ctx db) with
  | Some e => (0, Some e)
  | None =>
      match conds_filter (wheres db) with
      | None => (0, Some (driverError "SQL logic error"))
      | Some p =>
          let result := [Z.of_nat (length (List.filter p rows))] in
          let result :=
            if 0 <? offset db then drop (Z.to_nat (offset db)) result
            else result in
          let result :=
            match limit db with
            | Some n => if 0 <=? n then take (Z.to_nat n) result else result
            | None => result
            end in
          (default 0 (head result), None)
      end
  end.

(** [db.Transaction(fc)]: begin, run the unit of work on the
    transaction-scoped handle, commit when it returns nil, roll back and
    return its error otherwise. *)
Definition Transaction (db : DB)
    (fc : DB -> list T -> list T * option error) (rows : list T)
    : list T * option error :=
  match Err (ctx db) with
  | Some e => (rows, Some e)                 (* Begin fails *)
  | None =>
      match fc db rows with
      | (_, Some e) => (rows, Some e)        (* Rollback *)
      | (rows', None) => (rows', None)       (* Commit *)
      end
  end.

(** [db.Save(value)]: an insert when the record carries no key; otherwise
    an update of every column of the row with that key, and an insert of
    the record under its key when no such row exists.  A unique index held
    by another row rejects the write. *)
Definition Save (db : DB) (value : T) (rows : list T)
    : list T * T * option error :=
  if decide (pk value = 0) then Create db value rows
  else
    match Err (ctx db) with
    | Some e => (rows, value, Some e)
    | None =>
        match conds_filter (wheres db) with
        | None => (rows, value, Some (driverError "SQL logic error"))
        | Some _ =>
            let others :=
              List.filter (fun x => negb (bool_decide (pk x = pk value))) rows in
            match violated value others with
            | Some ix =>
                (rows, value,
                 Some (driverError ("UNIQUE constraint failed: " +:+ ix)))
            | None =>
                if existsb (fun x => bool_decide (pk x = pk value)) rows
                then (map (fun x => if bool_decide (pk x = pk value)
                                    then value else x) rows,
                      value, None)
                else (rows ++ [value], value, None)
            end
        end
    end.

(** [db.Delete(value, conds...)]: removes the rows that satisfy the
    [Where] clauses, the key given in [conds] and the key of [value] when
    it carries one.  A delete without any condition is refused with
    [ErrMissingWhereClause] ("WHERE conditions required"); a delete that
    matches no row is not an error. *)
Definition Delete (db : DB) (value : T) (conds : option Z) (rows : list T)
    : list T * option error :=
  match Err (ctx db) with
  | Some e => (rows, Some e)
  | None =>
      match wheres db, conds, decide (pk value = 0) with
      | [], None, left _ =>
          (rows, Some (errorString "WHERE conditions required"))
      | _, _, _ =>
          match conds_filter (wheres db) with
          | None => (rows, Some (driverError "SQL logic error"))
          | Some p =>
              let by_id x :=
                match conds with
                | Some id => bool_decide (pk x = id)
                | None => true
                end in
              let by_value x :=
                bool_decide (pk value = 0) || bool_decide (pk x = pk value) in
              (List.filter (fun x => negb (p x && by_id x && by_value x)) rows,
               None)
          end
      end
  end.

End Client.

End gorm.

(** ** [package db]: the connection manager *)

Module db.

(** ErrNotFound is returned when a record is not found *)
Definition ErrNotFound : error := ErrRecordNotFound.

(** Config holds the database configuration *)
Record Config : Type := {
  Driver : string;
  DSN : string;
  MaxOpenConns : Z;
  MaxIdleConns : Z;
  ConnMaxLifetime : Z;
  ConnMaxIdleTime : Z;
  LogLevel : Z
}.

#[global] Instance Config_eq_dec : EqDecision Config.
Proof. solve_decision. Defined.

(** A [*Config] is nil or the address of a [Config] in the heap. *)
Definition loc : Type := positive.

(** DB wraps gorm.DB with additional functionality.  [gormDB] is the
    embedded [*gorm.DB]. *)
Record DB : Type := {
  gormDB : option gorm.DB;
  config : option loc
}.

(** The result of [New]: the heap and the pool it leaves behind, and the
    two values it returns. *)
Record NewResult : Type := {
  heap_after : gmap loc Config;
  pool_after : option sql.DB;
  ret : option DB;
  err : option error
}.

(** The "Set defaults" block of [New], field by field. *)
Definition setDefaults (c : Config) : Config :=
  let c :=
    if decide (MaxOpenConns c = 0)
    then {| Driver := Driver c; DSN := DSN c; MaxOpenConns := 100;
            MaxIdleConns := MaxIdleConns c;
            ConnMaxLifetime := ConnMaxLifetime c;
            ConnMaxIdleTime := ConnMaxIdleTime c; LogLevel := LogLevel c |}
    else c in
  let c :=
    if decide (MaxIdleConns c = 0)
    then {| Driver := Driver c; DSN := DSN c; MaxOpenConns := MaxOpenConns c;
            MaxIdleConns := 10;
            ConnMaxLifetime := ConnMaxLifetime c;
            ConnMaxIdleTime := ConnMaxIdleTime c; LogLevel := LogLevel c |}
    else c in
  let c :=
    if decide (ConnMaxLifetime c = 0)
    then {| Driver := Driver c; DSN := DSN c; MaxOpenConns := MaxOpenConns c;
            MaxIdleConns := MaxIdleConns c;
            ConnMaxLifetime := time.Hour;
            ConnMaxIdleTime := ConnMaxIdleTime c; LogLevel := LogLevel c |}
    else c in
  if decide (ConnMaxIdleTime c = 0)
  then {| Driver := Driver c; DSN := DSN c; MaxOpenConns := MaxOpenConns c;
          MaxIdleConns := MaxIdleConns c;
          ConnMaxLifetime := ConnMaxLifetime c;
          ConnMaxIdleTime := 10 * time.Minute; LogLevel := LogLevel c |}
  else c.

(** New creates a new database connection.  [config] is nil or points
    into the heap [h]; the writes to [config.X] go through the pointer, into
    the caller's [Config]. *)
Definition New (config : option loc) (dialector : gorm.Dialector)
    (h : gmap loc Config) : NewResult :=
  match config ≫= (h !!.) with
  | None =>
      {| heap_after := h; pool_after := None; ret := None;
         err := Some (errorString "config cannot be nil") |}
  | Some c =>
      (* Set defaults *)
      let c := setDefaults c in
      let h := match config with Some l => <[l := c]> h | None => h end in
      (* GORM config *)
      let gormConfig :=
        {| gorm.Logger := LogLevel c; gorm.NowFuncUTC := true |} in
      (* Open database connection *)
      match gorm.Open dialector gormConfig with
      | inl e =>
          {| heap_after := h; pool_after := None; ret := None;
             err := Some (wrapError "failed to connect to database" e) |}
      | inr gormDB =>
          (* Get underlying sql.DB *)
          match gorm.DB' gormDB (gorm.ConnPool_of dialector) with
          | inl e =>
              {| heap_after := h; pool_after := None; ret := None;
                 err := Some (wrapError "failed to get database instance" e) |}
          | inr sqlDB =>
              (* Set connection pool settings *)
              let sqlDB := sql.call (sql.SetMaxOpenConns (MaxOpenConns c)) sqlDB in
              let sqlDB := sql.call (sql.SetMaxIdleConns (MaxIdleConns c)) sqlDB in
              let sqlDB := sql.call (sql.SetConnMaxLifetime (ConnMaxLifetime c)) sqlDB in
              let sqlDB := sql.call (sql.SetConnMaxIdleTime (ConnMaxIdleTime c)) sqlDB in
              {| heap_after := h; pool_after := Some sqlDB;
                 ret := Some {| gormDB := Some gormDB; config := config |};
                 err := None |}
          end
      end
  end.

Section WithDriver.
Context `{sql.Driver}.

(** Ping checks the database connection *)
Definition Ping (db : DB) (ctx : Context) (pool : sql.DB)
    : sql.DB * option error :=
  match gormDB db with
  | None => (pool, Some ErrNotConnected)
  | Some g =>
      match gorm.DB' g (Some pool) with
      | inl err => (pool, Some err)
      | inr sqlDB => sql.PingContext ctx sqlDB
      end
  end.

(** HealthCheck returns the database health status *)
Definition HealthCheck (db : DB) (ctx : Context) (pool : sql.DB)
    : sql.DB * option error :=
  match gormDB db with
  | None => (pool, Some ErrNotConnected)
  | Some g =>
      match gorm.DB' g (Some pool) with
      | inl err =>
          (pool, Some (wrapError "failed to get database instance" err))
      | inr sqlDB =>
          (* Check connection *)
          match sql.PingContext ctx sqlDB with
          | (sqlDB, Some err) =>
              (sqlDB, Some (wrapError "database ping failed" err))
          | (sqlDB, None) =>
              (* Check stats *)
              let stats := sql.Stats sqlDB in
              if decide (sql.OpenConnections stats = 0)
              then (sqlDB, Some (errorString "no open connections"))
              else (sqlDB, None)
          end
      end
  end.

End WithDriver.

Section Transactions.
Context {T : Type} `{gorm.Schema T}.

(** Transaction executes a function within a database transaction.
    The call goes through the embedded pointer: on a manager without a
    handle it is a nil dereference, [None] here. *)
Definition Transaction (db : DB)
    (fn : gorm.DB -> list T -> list T * option error) (rows : list T)
    : option (list T * option error) :=
  match gormDB db with
  | None => None
  | Some g => Some (gorm.Transaction g fn rows)
  end.

End Transactions.

(** A value of a [map[string]interface{}]. *)
Inductive any : Type :=
| AnyInt (z : Z)
| AnyString (s : string).

Section Lifecycle.
Context `{sql.Closer}.

(** Close closes the database connection *)
Definition Close (db : DB) (pool : sql.DB) : sql.DB * option error :=
  match gormDB db with
  | None => (pool, Some ErrNotConnected)
  | Some g =>
      match gorm.DB' g (Some pool) with
      | inl err => (pool, Some err)
      | inr sqlDB => sql.Close sqlDB
      end
  end.

End Lifecycle.

(** WithContext returns a new DB instance with the given context.  The
    call goes through the embedded pointer: on a manager without a handle
    it is a nil dereference, [None] here. *)
Definition WithContext (db : DB) (ctx : Context) : option DB :=
  match gormDB db with
  | None => None
  | Some g =>
      Some {| gormDB := Some (gorm.WithContext g ctx); config := config db |}
  end.

Section Statistics.

(** [time.Duration.String], the text of a duration. *)
Variable Duration_String : Z -> string.

(** Stats returns database connection pool statistics *)
Definition Stats (db : DB) (pool : sql.DB)
    : option (gmap string any) * option error :=
  match gormDB db with
  | None => (None, Some ErrNotConnected)
  | Some g =>
      match gorm.DB' g (Some pool) with
      | inl err => (None, Some err)
      | inr sqlDB =>
          let stats := sql.Stats sqlDB in
          (Some
             (<["max_open_connections" := AnyInt (sql.MaxOpenConnections stats)]>
             (<["open_connections" := AnyInt (sql.OpenConnections stats)]>
             (<["in_use" := AnyInt (sql.InUse stats)]>
             (<["idle" := AnyInt (sql.Idle stats)]>
             (<["wait_count" := AnyInt (sql.WaitCount stats)]>
             (<["wait_duration" :=
                  AnyString (Duration_String (sql.WaitDuration stats))]>
             (<["max_idle_closed" := AnyInt (sql.MaxIdleClosed stats)]>
             (<["max_lifetime_closed" := AnyInt (sql.MaxLifetimeClosed stats)]>
                ∅)))))))),
           None)
      end
  end.

End Statistics.

End db.

(** ** [package repository]: the generic repository *)

Module repository.

(** Repository provides generic CRUD operations *)
Record Repository (T : Type) : Type := { db : gorm.DB }.
Arguments db {T} _.

Section Generic.
Context {T : Type} `{gorm.Schema T}.

(** New creates a new repository instance *)
Definition New (db : gorm.DB) : Repository T := {| db := db |}.

(** Create creates a new record *)
Definition Create (r : Repository T) (ctx : Context) (entity : T)
    (rows : list T) : list T * T * option error :=
  gorm.Create (gorm.WithContext (db r) ctx) entity rows.

(** FindByID finds a record by ID *)
Definition FindByID (r : Repository T) (ctx : Context) (id : Z) (entity : T)
    (rows : list T) : T * option error :=
  gorm.First (gorm.WithContext (db r) ctx) entity (Some id) rows.

(** FindAll finds all records *)
Definition FindAll (r : Repository T) (ctx : Context) (rows : list T)
    : list T * option error :=
  let '(entities, err) := gorm.Find (gorm.WithContext (db r) ctx) rows in
  (entities, err).

(** Count counts all records *)
Definition Count (r : Repository T) (ctx : Context) (rows : list T)
    : Z * option error :=
  let '(count, err) :=
    gorm.Count (gorm.Model (gorm.WithContext (db r) ctx)) rows in
  (count, err).

(** FindWhere finds records matching the condition *)
Definition FindWhere (r : Repository T) (ctx : Context)
    (query : string) (args : list gorm.Value) (rows : list T)
    : list T * option error :=
  let '(entities, err) :=
    gorm.Find (gorm.Where (gorm.WithContext (db r) ctx) query args) rows in
  (entities, err).

(** FirstWhere finds the first record matching the condition *)
Definition FirstWhere (r : Repository T) (ctx : Context) (entity : T)
    (query : string) (args : list gorm.Value) (rows : list T)
    : T * option error :=
  gorm.First (gorm.Where (gorm.WithContext (db r) ctx) query args)
    entity None rows.

(** Paginate returns paginated results *)
Definition Paginate (r : Repository T) (ctx : Context) (page pageSize : Z)
    (rows : list T) : list T * Z * option error :=
  (* Get total count *)
  match gorm.Count (gorm.Model (gorm.WithContext (db r) ctx)) rows with
  | (_, Some err) => ([], 0, Some err)
  | (total, None) =>
      (* Get paginated results *)
      let offset := int_mul (int_sub page 1) pageSize in
      let '(entities, err) :=
        gorm.Find
          (gorm.Limit (gorm.Offset (gorm.WithContext (db r) ctx) offset)
             pageSize)
          rows in
      (entities, total, err)
  end.

(** Transaction executes operations within a transaction *)
Definition Transaction (r : Repository T) (ctx : Context)
    (fn : gorm.DB -> list T -> list T * option error) (rows : list T)
    : list T * option error :=
  gorm.Transaction (gorm.WithContext (db r) ctx) fn rows.

(** Update updates a record *)
Definition Update (r : Repository T) (ctx : Context) (entity : T)
    (rows : list T) : list T * T * option error :=
  gorm.Save (gorm.WithContext (db r) ctx) entity rows.

(** Delete deletes a record *)
Definition Delete (r : Repository T) (ctx : Context) (entity : T)
    (rows : list T) : list T * option error :=
  gorm.Delete (gorm.WithContext (db r) ctx) entity None rows.

(** DeleteByID deletes a record by ID *)
Definition DeleteByID (r : Repository T) (ctx : Context) (id : Z)
    (rows : list T) : list T * option error :=
  let entity : T := gorm.zero in
  gorm.Delete (gorm.WithContext (db r) ctx) entity (Some id) rows.

End Generic.

End repository.

(** ** The fixtures of [repository_test.go] *)

Module repository_test.

(** TestUser is a test entity *)
Record TestUser : Type := {
  ID : Z;            (* gorm:"primarykey" *)
  Name : string;     (* gorm:"size:100" *)
  Email : string;    (* gorm:"size:100;uniqueIndex" *)
  Age : Z
}.

#[global] Instance TestUser_eq_dec : EqDecision TestUser.
Proof. solve_decision. Defined.

Definition with_ID (k : Z) (u : TestUser) : TestUser :=
  {| ID := k; Name := Name u; Email := Email u; Age := Age u |}.

(** The filter expressions the tests pass to [Where]. *)
Definition TestUser_filter (q : string) (a : list gorm.Value)
    : option (TestUser -> bool) :=
  match a with
  | [gorm.VInt n] =>
      if decide (q = "age = ?") then Some (fun u => bool_decide (Age u = n))
      else if decide (q = "id = ?") then Some (fun u => bool_decide (ID u = n))
      else None
  | [gorm.VStr s] =>
      if decide (q = "email = ?") then Some (fun u => bool_decide (Email u = s))
      else if decide (q = "name = ?") then Some (fun u => bool_decide (Name u = s))
      else None
  | _ => None
  end.

#[global, refine] Instance TestUser_schema : gorm.Schema TestUser := {|
  gorm.zero := {| ID := 0; Name := ""; Email := ""; Age := 0 |};
  gorm.pk := ID;
  gorm.set_pk := with_ID;
  gorm.unique_indexes := [("test_users.email", fun u => gorm.VStr (Email u))];
  gorm.filter_of := TestUser_filter
|}.
Proof. reflexivity. Defined.

(** [setupTestDB]: a handle on an empty in-memory database. *)
Definition setupTestDB : gorm.DB :=
  {| gorm.config := {| gorm.Logger := 0; gorm.NowFuncUTC := false |};
     gorm.pool := gorm.SqlDB; gorm.ctx := Background; gorm.model := false;
     gorm.wheres := []; gorm.offset := 0; gorm.limit := None |}.

Definition repo : repository.Repository TestUser := repository.New setupTestDB.

Definition john : TestUser :=
  {| ID := 0; Name := "John Doe"; Email := "john@example.com"; Age := 30 |}.
Definition user1 : TestUser :=
  {| ID := 0; Name := "User 1"; Email := "duplicate@example.com"; Age := 25 |}.
Definition user2 : TestUser :=
  {| ID := 0; Name := "User 2"; Email := "duplicate@example.com"; Age := 28 |}.
Definition jane : TestUser :=
  {| ID := 0; Name := "Jane Doe"; Email := "jane@example.com"; Age := 28 |}.

(** The unit of work of "commits transaction on success". *)
Definition create_two (tx : gorm.DB) (rows : list TestUser)
    : list TestUser * option error :=
  let tx1 := {| ID := 0; Name := "User 1"; Email := "tx1@example.com"; Age := 25 |} in
  let tx2 := {| ID := 0; Name := "User 2"; Email := "tx2@example.com"; Age := 30 |} in
  match gorm.Create tx tx1 rows with
  | (rows, _, Some err) => (rows, Some err)
  | (rows, _, None) =>
      match gorm.Create tx tx2 rows with
      | (rows, _, Some err) => (rows, Some err)
      | (rows, _, None) => (rows, None)
      end
  end.

(** The unit of work of "rolls back transaction on error". *)
Definition create_then_fail (tx : gorm.DB) (rows : list TestUser)
    : list TestUser * option error :=
  let user :=
    {| ID := 0; Name := "Rollback User"; Email := "rollback@example.com";
       Age := 25 |} in
  match gorm.Create tx user rows with
  | (rows, _, Some err) => (rows, Some err)
  | (rows, _, None) => (rows, Some ErrInvalidTransaction)
  end.

(** The loop of [TestPaginate]: users numbered 1 to [n], created through
    the repository one after the other. *)
Definition numbered (i : nat) : TestUser :=
  {| ID := 0; Name := "User";
     Email := "user" +:+ String (Ascii.ascii_of_nat i) "" +:+ "@example.com";
     Age := 20 + Z.of_nat i |}.

Fixpoint seeded (n : nat) : list TestUser :=
  match n with
  | O => []
  | S k =>
      let rows := seeded k in
      fst (fst (repository.Create repo Background (numbered n) rows))
  end.

(** [jane] as stored by the first insert into an empty table. *)
Definition jane_stored : TestUser := with_ID 1 jane.

(** A second stored user, and [jane] after her birthday, as
    [TestUpdate] changes a stored record. *)
Definition bob_stored : TestUser :=
  {| ID := 2; Name := "Bob"; Email := "bob@example.com"; Age := 30 |}.
Definition jane_older : TestUser :=
  {| ID := 1; Name := "Jane Doe"; Email := "jane@example.com"; Age := 30 |}.
Definition two_users : list TestUser := [jane_stored; bob_stored].

End repository_test.

(** ** Fixtures for the connection manager *)

Module db_test.

Definition no_stats : sql.DBStats :=
  {| sql.MaxOpenConnections := 0; sql.OpenConnections := 0; sql.InUse := 0;
     sql.Idle := 0; sql.WaitCount := 0; sql.WaitDuration := 0;
     sql.MaxIdleClosed := 0; sql.MaxLifetimeClosed := 0 |}.

Definition fresh_pool : sql.DB := {| sql.calls := []; sql.Stats := no_stats |}.

(** A dialector that opens an in-memory database. *)
Definition sqlite_memory : gorm.Dialector :=
  {| gorm.Initialize := None; gorm.ConnPool_of := Some fresh_pool |}.

(** The configuration of the README, pool fields left unset. *)
Definition unset : db.Config :=
  {| db.Driver := "sqlite"; db.DSN := ":memory:"; db.MaxOpenConns := 0;
     db.MaxIdleConns := 0; db.ConnMaxLifetime := 0; db.ConnMaxIdleTime := 0;
     db.LogLevel := 0 |}.

(** A configuration with negative pool fields. *)
Definition negative : db.Config :=
  {| db.Driver := "sqlite"; db.DSN := ":memory:"; db.MaxOpenConns := -1;
     db.MaxIdleConns := -2; db.ConnMaxLifetime := -3; db.ConnMaxIdleTime := -4;
     db.LogLevel := 0 |}.

(** A server that answers every ping of a live context and leaves the
    pool as it finds it. *)
Definition answering : sql.Driver :=
  {| sql.PingContext := fun ctx p => (p, Err ctx) |}.

Definition manager : db.DB :=
  {| db.gormDB := Some repository_test.setupTestDB; db.config := Some 1%positive |}.

(** A pool whose [Close] succeeds. *)
Definition closing : sql.Closer :=
  {| sql.Close := fun p => (p, None) |}.

(** A manager that was never connected. *)
Definition unconnected : db.DB := {| db.gormDB := None; db.config := None |}.

(** A pool with three connections, one of them in use. *)
Definition busy_pool : sql.DB :=
  {| sql.calls := [];
     sql.Stats :=
       {| sql.MaxOpenConnections := 100; sql.OpenConnections := 3;
          sql.InUse := 1; sql.Idle := 2; sql.WaitCount := 0;
          sql.WaitDuration := 0; sql.MaxIdleClosed := 0;
          sql.MaxLifetimeClosed := 0 |} |}.

End db_test.

(** * Properties *)

(** ** Errors and integer arithmetic *)

Lemma error_eqb_refl (e : error) : error_eqb e e = true.
Proof.
  induction e; simpl; try reflexivity.
  - apply bool_decide_eq_true_2; reflexivity.
  - rewrite IHe, bool_decide_eq_true_2 by reflexivity. reflexivity.
  - apply bool_decide_eq_true_2; reflexivity.
Qed.

Lemma Is_refl (e : error) : Is e e = true.
Proof.
  assert (He : error_eqb e e = true) by apply error_eqb_refl.
  destruct e; simpl in *; rewrite ?He; reflexivity.
Qed.

Lemma Is_wrapError (prefix : string) (e target : error) :
  Is e target = true -> Is (wrapError prefix e) target = true.
Proof. intros Hi. simpl. rewrite Hi. apply orb_true_r. Qed.

(** The sentinel for a missing record is GORM's own value. *)
Lemma ErrNotFound_is_gorm : Is ErrRecordNotFound db.ErrNotFound = true.
Proof. reflexivity. Qed.

Lemma int_wrap_small (z : Z) : is_int z -> int_wrap z = z.
Proof.
  unfold is_int, int_min, int_max, int_wrap. intros Hz.
  rewrite Z.mod_small; lia.
Qed.

Lemma int_wrap_range (z : Z) : is_int (int_wrap z).
Proof.
  unfold is_int, int_min, int_max, int_wrap.
  pose proof (Z.mod_pos_bound (z + 2 ^ 63) (2 ^ 64)). lia.
Qed.

(** Wrapping the difference first does not change the wrapped product. *)
Lemma int_mul_sub (page pageSize : Z) :
  int_mul (int_sub page 1) pageSize = int_wrap ((page - 1) * pageSize).
Proof.
  unfold int_mul, int_sub, int_wrap. f_equal.
  rewrite (Z.mod_eq (page - 1 + 2 ^ 63) (2 ^ 64)) by lia.
  set (q := (page - 1 + 2 ^ 63) / 2 ^ 64).
  replace ((page - 1 + 2 ^ 63 - 2 ^ 64 * q - 2 ^ 63) * pageSize + 2 ^ 63)
    with ((page - 1) * pageSize + 2 ^ 63 + (- (q * pageSize)) * 2 ^ 64) by ring.
  apply Z_mod_plus_full.
Qed.

(** ** The connection manager *)

Section ConnectionManager.

Implicit Types (c : db.Config) (l : db.loc) (d : gorm.Dialector).
Implicit Types (h : gmap db.loc db.Config) (p : sql.DB).

Lemma setDefaults_pool c :
  db.MaxOpenConns (db.setDefaults c)
    = (if decide (db.MaxOpenConns c = 0) then 100 else db.MaxOpenConns c)
  /\ db.MaxIdleConns (db.setDefaults c)
    = (if decide (db.MaxIdleConns c = 0) then 10 else db.MaxIdleConns c)
  /\ db.ConnMaxLifetime (db.setDefaults c)
    = (if decide (db.ConnMaxLifetime c = 0) then time.Hour
       else db.ConnMaxLifetime c)
  /\ db.ConnMaxIdleTime (db.setDefaults c)
    = (if decide (db.ConnMaxIdleTime c = 0) then 10 * time.Minute
       else db.ConnMaxIdleTime c).
Proof.
  unfold db.setDefaults. destruct c as [dr ds a b cl ci lv]; simpl.
  destruct (decide (a = 0)); simpl; destruct (decide (b = 0)); simpl;
    destruct (decide (cl = 0)); simpl; destruct (decide (ci = 0)); simpl;
    auto.
Qed.

Lemma setDefaults_set c :
  db.MaxOpenConns c <> 0 -> db.MaxIdleConns c <> 0 ->
  db.ConnMaxLifetime c <> 0 -> db.ConnMaxIdleTime c <> 0 ->
  db.setDefaults c = c.
Proof.
  intros Ha Hb Hcl Hci. revert Ha Hb Hcl Hci.
  unfold db.setDefaults. destruct c as [dr ds a b cl ci lv]; simpl.
  destruct (decide (a = 0)); simpl; destruct (decide (b = 0)); simpl;
    destruct (decide (cl = 0)); simpl; destruct (decide (ci = 0)); simpl;
    congruence.
Qed.

Lemma New_heap l c d h :
  h !! l = Some c ->
  db.heap_after (db.New (Some l) d h) = <[l := db.setDefaults c]> h.
Proof.
  intros Hl. unfold db.New. simpl. rewrite Hl.
  destruct (gorm.Open d _) as [e|g]; [reflexivity|].
  destruct (gorm.DB' g _); reflexivity.
Qed.

Lemma New_opened l c d h p :
  h !! l = Some c ->
  gorm.Initialize d = None -> gorm.ConnPool_of d = Some p ->
  db.err (db.New (Some l) d h) = None
  /\ db.pool_after (db.New (Some l) d h)
     = Some {| sql.calls :=
                 sql.calls p ++
                 [sql.SetMaxOpenConns (db.MaxOpenConns (db.setDefaults c));
                  sql.SetMaxIdleConns (db.MaxIdleConns (db.setDefaults c));
                  sql.SetConnMaxLifetime (db.ConnMaxLifetime (db.setDefaults c));
                  sql.SetConnMaxIdleTime (db.ConnMaxIdleTime (db.setDefaults c))];
               sql.Stats := sql.Stats p |}.
Proof.
  intros Hl Hi Hp. unfold db.New, gorm.Open, gorm.DB'. simpl.
  rewrite Hl, Hi, Hp. simpl. split; [reflexivity|].
  unfold sql.call. simpl. rewrite <- !app_assoc. reflexivity.
Qed.


Local Notation "'or_default' v dflt" :=
  (if decide (v = 0) then dflt else v) (at level 10, v, dflt at level 9, only parsing).

Lemma setDefaults_eq c :
  db.setDefaults c =
  {| db.Driver := db.Driver c; db.DSN := db.DSN c;
     db.MaxOpenConns := or_default (db.MaxOpenConns c) 100;
     db.MaxIdleConns := or_default (db.MaxIdleConns c) 10;
     db.ConnMaxLifetime := or_default (db.ConnMaxLifetime c) 3600000000000;
     db.ConnMaxIdleTime := or_default (db.ConnMaxIdleTime c) 600000000000;
     db.LogLevel := db.LogLevel c |}.
Proof.
  unfold db.setDefaults. destruct c as [dr ds a b cl ci lv]; simpl.
  destruct (decide (a = 0)); simpl; destruct (decide (b = 0)); simpl;
    destruct (decide (cl = 0)); simpl; destruct (decide (ci = 0)); simpl;
    reflexivity.
Qed.

(** C2, as the specification states it, fails: [New] fills the defaults
    in through the pointer, so a caller who passes a [Config] with unset
    pool fields finds 100, 10, one hour and ten minutes in it afterwards. *)
Lemma New_mutates_config_counterexample :
  let h : gmap db.loc db.Config := {[ 1%positive := db_test.unset ]} in
  h !! 1%positive = Some db_test.unset
  /\ db.heap_after (db.New (Some 1%positive) db_test.sqlite_memory h) !! 1%positive
     = Some {| db.Driver := "sqlite"; db.DSN := ":memory:";
               db.MaxOpenConns := 100; db.MaxIdleConns := 10;
               db.ConnMaxLifetime := 3600000000000;
               db.ConnMaxIdleTime := 600000000000; db.LogLevel := 0 |}
  /\ db.heap_after (db.New (Some 1%positive) db_test.sqlite_memory h) !! 1%positive
     <> h !! 1%positive.
Proof.
  cbv zeta. rewrite (New_heap 1%positive db_test.unset) by apply lookup_singleton_eq.
  rewrite lookup_insert_eq, lookup_singleton_eq.
  split; [reflexivity|]. split; [reflexivity|]. intros Heq. discriminate Heq.
Qed.

(** C2, amended: [New] overwrites the caller's [Config] with the same
    configuration in which every zero pool field holds its default, also
    when opening the database fails afterwards.  The driver, the DSN, the
    log level and the non-zero pool fields keep their values, no other
    [Config] is touched, and a [Config] whose four pool fields are all
    non-zero is left exactly as it was. *)
Theorem New_config_effect l c d h :
  h !! l = Some c ->
  db.heap_after (db.New (Some l) d h)
    = <[l := {| db.Driver := db.Driver c; db.DSN := db.DSN c;
                db.MaxOpenConns := or_default (db.MaxOpenConns c) 100;
                db.MaxIdleConns := or_default (db.MaxIdleConns c) 10;
                db.ConnMaxLifetime :=
                  or_default (db.ConnMaxLifetime c) 3600000000000;
                db.ConnMaxIdleTime :=
                  or_default (db.ConnMaxIdleTime c) 600000000000;
                db.LogLevel := db.LogLevel c |}]> h
  /\ (forall l', l' <> l ->
        db.heap_after (db.New (Some l) d h) !! l' = h !! l')
  /\ (db.MaxOpenConns c <> 0 -> db.MaxIdleConns c <> 0 ->
      db.ConnMaxLifetime c <> 0 -> db.ConnMaxIdleTime c <> 0 ->
      db.heap_after (db.New (Some l) d h) = h).
Proof.
  intros Hl. rewrite (New_heap l c d h Hl). split; [|split].
  - rewrite setDefaults_eq. reflexivity.
  - intros l' Hne. apply lookup_insert_ne. congruence.
  - intros Ha Hb Hcl Hci. rewrite setDefaults_set by assumption.
    apply insert_id. exact Hl.
Qed.

Lemma New_config_effect_witness :
  db.heap_after
    (db.New (Some 1%positive) db_test.sqlite_memory
       {[ 1%positive := db_test.negative ]})
  = {[ 1%positive := db_test.negative ]}.
Proof.
  apply (New_config_effect 1%positive db_test.negative db_test.sqlite_memory
           {[ 1%positive := db_test.negative ]}).
  - apply lookup_singleton_eq.
  - simpl. lia.
  - simpl. lia.
  - simpl. lia.
  - simpl. lia.
Defined.

(** C4: when the database opens, the pool receives exactly four setter
    calls, in the order of the source, carrying 100, 10, one hour and ten
    minutes (in nanoseconds) for the fields that were zero and the
    configured value for every other field; the same values are the ones
    filled into the configuration. *)
Theorem New_applies_pool_defaults l c d h p :
  h !! l = Some c ->
  gorm.Initialize d = None -> gorm.ConnPool_of d = Some p ->
  db.err (db.New (Some l) d h) = None
  /\ db.pool_after (db.New (Some l) d h)
     = Some {| sql.calls :=
                 sql.calls p ++
                 [sql.SetMaxOpenConns (or_default (db.MaxOpenConns c) 100);
                  sql.SetMaxIdleConns (or_default (db.MaxIdleConns c) 10);
                  sql.SetConnMaxLifetime
                    (or_default (db.ConnMaxLifetime c) (60 * 60 * 1000000000));
                  sql.SetConnMaxIdleTime
                    (or_default (db.ConnMaxIdleTime c) (10 * 60 * 1000000000))];
               sql.Stats := sql.Stats p |}
  /\ db.heap_after (db.New (Some l) d h) !! l
     = Some {| db.Driver := db.Driver c; db.DSN := db.DSN c;
               db.MaxOpenConns := or_default (db.MaxOpenConns c) 100;
               db.MaxIdleConns := or_default (db.MaxIdleConns c) 10;
               db.ConnMaxLifetime :=
                 or_default (db.ConnMaxLifetime c) (60 * 60 * 1000000000);
               db.ConnMaxIdleTime :=
                 or_default (db.ConnMaxIdleTime c) (10 * 60 * 1000000000);
               db.LogLevel := db.LogLevel c |}.
Proof.
  intros Hl Hi Hp.
  destruct (New_opened l c d h p Hl Hi Hp) as [He Hpool].
  split; [exact He|]. split.
  - rewrite Hpool, setDefaults_eq. reflexivity.
  - rewrite (New_heap l c d h Hl), lookup_insert_eq, setDefaults_eq.
    reflexivity.
Qed.

Lemma New_applies_pool_defaults_witness :
  db.pool_after
    (db.New (Some 1%positive) db_test.sqlite_memory
       {[ 1%positive := db_test.unset ]})
  = Some {| sql.calls :=
              [sql.SetMaxOpenConns 100; sql.SetMaxIdleConns 10;
               sql.SetConnMaxLifetime 3600000000000;
               sql.SetConnMaxIdleTime 600000000000];
            sql.Stats := db_test.no_stats |}.
Proof.
  apply (New_applies_pool_defaults 1%positive db_test.unset
           db_test.sqlite_memory {[ 1%positive := db_test.unset ]}
           db_test.fresh_pool).
  - apply lookup_singleton_eq.
  - reflexivity.
  - reflexivity.
Defined.

(** C10: the defaulting looks for zero only.  A negative pool field stays
    in the configuration and is the argument of the corresponding setter
    call; [New] does not fail on it. *)
Theorem New_keeps_negative_pool_values l c d h p :
  h !! l = Some c ->
  gorm.Initialize d = None -> gorm.ConnPool_of d = Some p ->
  let r := db.New (Some l) d h in
  let sent : list sql.PoolCall :=
    from_option (fun q => drop (length (sql.calls p)) (sql.calls q)) []
      (db.pool_after r) in
  db.err r = None
  /\ length sent = 4%nat
  /\ (db.MaxOpenConns c < 0 ->
      db.MaxOpenConns <$> db.heap_after r !! l = Some (db.MaxOpenConns c)
      /\ sent !! 0%nat = Some (sql.SetMaxOpenConns (db.MaxOpenConns c)))
  /\ (db.MaxIdleConns c < 0 ->
      db.MaxIdleConns <$> db.heap_after r !! l = Some (db.MaxIdleConns c)
      /\ sent !! 1%nat = Some (sql.SetMaxIdleConns (db.MaxIdleConns c)))
  /\ (db.ConnMaxLifetime c < 0 ->
      db.ConnMaxLifetime <$> db.heap_after r !! l = Some (db.ConnMaxLifetime c)
      /\ sent !! 2%nat = Some (sql.SetConnMaxLifetime (db.ConnMaxLifetime c)))
  /\ (db.ConnMaxIdleTime c < 0 ->
      db.ConnMaxIdleTime <$> db.heap_after r !! l = Some (db.ConnMaxIdleTime c)
      /\ sent !! 3%nat = Some (sql.SetConnMaxIdleTime (db.ConnMaxIdleTime c))).
Proof.
  intros Hl Hi Hp r sent.
  destruct (New_opened l c d h p Hl Hi Hp) as [He Hpool].
  assert (Hsent : sent =
    [sql.SetMaxOpenConns (db.MaxOpenConns (db.setDefaults c));
     sql.SetMaxIdleConns (db.MaxIdleConns (db.setDefaults c));
     sql.SetConnMaxLifetime (db.ConnMaxLifetime (db.setDefaults c));
     sql.SetConnMaxIdleTime (db.ConnMaxIdleTime (db.setDefaults c))]).
  { subst sent r. rewrite Hpool. simpl. apply drop_app_length. }
  assert (Hh : db.heap_after r !! l = Some (db.setDefaults c)).
  { subst r. rewrite (New_heap l c d h Hl). apply lookup_insert_eq. }
  destruct (setDefaults_pool c) as (Ha & Hb & Hcl & Hci).
  rewrite Hsent, Hh. simpl.
  split; [exact He|]. split; [reflexivity|].
  split; [|split; [|split]]; intros Hneg.
  all: first [ rewrite Ha | rewrite Hb | rewrite Hcl | rewrite Hci ].
  all: clear - Hneg; case_decide; [lia | split; reflexivity].
Qed.

Lemma New_keeps_negative_pool_values_witness :
  db.err
    (db.New (Some 1%positive) db_test.sqlite_memory
       {[ 1%positive := db_test.negative ]}) = None
  /\ db.pool_after
       (db.New (Some 1%positive) db_test.sqlite_memory
          {[ 1%positive := db_test.negative ]})
     = Some {| sql.calls :=
                 [sql.SetMaxOpenConns (-1); sql.SetMaxIdleConns (-2);
                  sql.SetConnMaxLifetime (-3); sql.SetConnMaxIdleTime (-4)];
               sql.Stats := db_test.no_stats |}.
Proof.
  split; [|reflexivity].
  apply (New_keeps_negative_pool_values 1%positive db_test.negative
           db_test.sqlite_memory {[ 1%positive := db_test.negative ]}
           db_test.fresh_pool).
  - apply lookup_singleton_eq.
  - reflexivity.
  - reflexivity.
Defined.

(** C3: [HealthCheck] runs the liveness check of [Ping] on the same pool.
    Whenever [Ping] fails, [HealthCheck] fails too, with an error that
    wraps the one [Ping] returns; when [Ping] succeeds and the pool then
    reports no open connection, [HealthCheck] fails with the degraded-pool
    error "no open connections"; when [Ping] succeeds and a connection is
    open, it succeeds. *)
Theorem HealthCheck_stricter_than_Ping `{sql.Driver}
    (m : db.DB) (ctx : Context) p :
  (forall p' e, db.Ping m ctx p = (p', Some e) ->
     exists e', db.HealthCheck m ctx p = (p', Some e') /\ Is e' e = true)
  /\ (forall p', db.Ping m ctx p = (p', None) ->
        sql.OpenConnections (sql.Stats p') = 0 ->
        db.HealthCheck m ctx p
          = (p', Some (errorString "no open connections")))
  /\ (forall p', db.Ping m ctx p = (p', None) ->
        sql.OpenConnections (sql.Stats p') <> 0 ->
        db.HealthCheck m ctx p = (p', None)).
Proof.
  unfold db.Ping, db.HealthCheck.
  destruct (db.gormDB m) as [g|].
  2: { repeat split; intros; simplify_eq. eexists; split; [reflexivity|].
       reflexivity. }
  destruct (gorm.DB' g (Some p)) as [e0|q].
  { repeat split; intros; simplify_eq. eexists; split; [reflexivity|].
    apply Is_wrapError, Is_refl. }
  destruct (sql.PingContext ctx q) as [q' [e1|]].
  - repeat split; intros; simplify_eq. eexists; split; [reflexivity|].
    apply Is_wrapError, Is_refl.
  - repeat split; intros; simplify_eq.
    + case_decide; [reflexivity|contradiction].
    + case_decide; [contradiction|reflexivity].
Qed.

Lemma HealthCheck_stricter_than_Ping_witness :
  @db.Ping db_test.answering db_test.manager Background db_test.fresh_pool
    = (db_test.fresh_pool, None)
  /\ @db.HealthCheck db_test.answering db_test.manager Background
       db_test.fresh_pool
     = (db_test.fresh_pool, Some (errorString "no open connections")).
Proof.
  split; [reflexivity|].
  apply (proj1 (proj2 (@HealthCheck_stricter_than_Ping db_test.answering
                         db_test.manager Background db_test.fresh_pool))).
  - reflexivity.
  - reflexivity.
Defined.

End ConnectionManager.

(** ** The reference client *)

Section ClientFacts.

Context {T : Type} `{gorm.Schema T}.

Implicit Types (rows : list T) (cs : list gorm.Cond) (p f : T -> bool).

Lemma filter_none f rows :
  (forall x, x ∈ rows -> f x = false) -> List.filter f rows = [].
Proof.
  induction rows as [|y rows IH]; intros Hf; simpl; [reflexivity|].
  rewrite (Hf y) by apply list_elem_of_here.
  apply IH. intros x Hx. apply Hf. apply list_elem_of_further, Hx.
Qed.

Lemma apply_offset_nil (n : Z) : gorm.apply_offset n ([] : list T) = [].
Proof. unfold gorm.apply_offset. destruct (0 <? n); [apply drop_nil|reflexivity]. Qed.

Lemma apply_limit_nil (n : option Z) : gorm.apply_limit n ([] : list T) = [].
Proof.
  unfold gorm.apply_limit. destruct n as [n|]; [|reflexivity].
  destruct (0 <=? n); [apply take_nil|reflexivity].
Qed.

Lemma apply_offset_none (n : Z) rows : n <= 0 -> gorm.apply_offset n rows = rows.
Proof.
  intros Hn. unfold gorm.apply_offset.
  destruct (Z.ltb_spec 0 n); [lia|reflexivity].
Qed.

(** A clause added by [Where] is conjoined with the clauses already on the
    statement. *)
Lemma conds_filter_snoc cs p (c : gorm.Cond) f :
  gorm.conds_filter cs = Some p ->
  gorm.filter_of (gorm.query c) (gorm.args c) = Some f ->
  exists g, gorm.conds_filter (cs ++ [c]) = Some g
            /\ forall x, g x = p x && f x.
Proof.
  revert p. induction cs as [|c0 cs IH]; intros p Hp Hf; simpl in *.
  - inversion Hp; subst. rewrite Hf. eexists; split; [reflexivity|].
    intros x. simpl. apply andb_true_r.
  - destruct (gorm.filter_of (gorm.query c0) (gorm.args c0)) as [p0|];
      [|discriminate].
    destruct (gorm.conds_filter cs) as [q|] eqn:Hq; [|discriminate].
    inversion Hp; subst.
    destruct (IH q eq_refl Hf) as (g & Hg & Hgx). rewrite Hg.
    eexists; split; [reflexivity|].
    intros x. simpl. rewrite Hgx. apply andb_assoc.
Qed.


Lemma next_id_fresh rows x : x ∈ rows -> gorm.pk x < gorm.next_id rows.
Proof.
  unfold gorm.next_id. induction 1 as [x rows|x y rows Hx IH]; simpl; lia.
Qed.

(** A row that violates nothing has a key no stored row carries. *)
Lemma violated_None_pk (row : T) rows :
  gorm.violated row rows = None ->
  forall x, x ∈ rows -> gorm.pk x <> gorm.pk row.
Proof.
  unfold gorm.violated.
  destruct (existsb _ rows) eqn:Hex; [discriminate|]. intros _ x Hx Heq.
  assert (Ht : existsb (fun x => bool_decide (gorm.pk x = gorm.pk row)) rows = true).
  { apply existsb_exists. exists x. split.
    - apply list_elem_of_In, Hx.
    - apply bool_decide_eq_true_2, Heq. }
  congruence.
Qed.

(** [First] on a statement no row satisfies. *)
Lemma First_empty (db : gorm.DB) (dest : T) (conds : option Z) rows p :
  Err (gorm.ctx db) = None ->
  gorm.conds_filter (gorm.wheres db) = Some p ->
  (forall x, x ∈ rows ->
     p x && match conds with
            | Some id => bool_decide (gorm.pk x = id)
            | None => true
            end = false) ->
  gorm.First db dest conds rows = (dest, Some ErrRecordNotFound).
Proof.
  intros Hctx Hp Hnone. unfold gorm.First. rewrite Hctx, Hp.
  rewrite filter_none.
  - simpl. rewrite apply_offset_nil. reflexivity.
  - intros x Hx. rewrite (Hnone x Hx). reflexivity.
Qed.

(** [Find] on a statement no row satisfies. *)
Lemma Find_empty (db : gorm.DB) rows p :
  Err (gorm.ctx db) = None ->
  gorm.conds_filter (gorm.wheres db) = Some p ->
  (forall x, x ∈ rows -> p x = false) ->
  gorm.Find db rows = ([], None).
Proof.
  intros Hctx Hp Hnone. unfold gorm.Find. rewrite Hctx, Hp.
  rewrite (filter_none p rows Hnone), apply_offset_nil, apply_limit_nil.
  reflexivity.
Qed.

(** What a successful [Create] leaves behind. *)
Lemma Create_ok (db : gorm.DB) (value : T) rows rows' (value' : T) :
  gorm.Create db value rows = (rows', value', None) ->
  Err (gorm.ctx db) = None
  /\ value' = gorm.set_pk
                (if decide (gorm.pk value = 0) then gorm.next_id rows
                 else gorm.pk value) value
  /\ rows' = rows ++ [value']
  /\ gorm.violated value' rows = None.
Proof.
  unfold gorm.Create. destruct (Err (gorm.ctx db)); [discriminate|].
  destruct (gorm.violated _ rows) eqn:Hv; [discriminate|].
  intros Heq. inversion Heq; subst. auto.
Qed.

(** On a live context the only error [Create] returns is the driver's. *)
Lemma Create_error (db : gorm.DB) (value : T) rows rows' (value' : T) e :
  Err (gorm.ctx db) = None ->
  gorm.Create db value rows = (rows', value', Some e) ->
  exists text, e = driverError text.
Proof.
  intros Hctx. unfold gorm.Create. rewrite Hctx.
  destruct (gorm.violated _ rows); intros Heq; inversion Heq; subst.
  eexists; reflexivity.
Qed.

(** [Count] through a handle whose limit clause lets the counting row
    through. *)
Lemma Count_plain (db : gorm.DB) rows p :
  Err (gorm.ctx db) = None ->
  gorm.conds_filter (gorm.wheres db) = Some p ->
  gorm.offset db <= 0 ->
  gorm.limit db <> Some 0 ->
  gorm.Count db rows = (Z.of_nat (length (List.filter p rows)), None).
Proof.
  intros Hctx Hp Hoff Hlim. unfold gorm.Count. rewrite Hctx, Hp.
  destruct (Z.ltb_spec 0 (gorm.offset db)); [lia|].
  destruct (gorm.limit db) as [n|]; [|reflexivity].
  destruct (Z.leb_spec 0 n); [|reflexivity].
  assert (n <> 0) by congruence.
  destruct (Z.to_nat n) eqn:Hn; [lia|reflexivity].
Qed.

End ClientFacts.

(** ** The generic repository *)

Section GenericRepository.

Context {T : Type} `{gorm.Schema T}.

Implicit Types (r : repository.Repository T) (rows : list T) (p f : T -> bool).

(** C5: [Paginate] counts first and returns the count's error alone when
    counting fails.  Otherwise it runs one query on the repository's handle
    with the limit clause set to offset [(page-1) * pageSize], computed in
    Go's [int], and limit [pageSize], whatever the sign of [page] and
    [pageSize]; it returns the rows and the error of that query together
    with the total of the count.  The offset is the mathematical product
    whenever that fits in an [int].  Through a handle that carries no
    clauses, no offset and no limit of zero, the total is the number of rows
    of the table. *)
Theorem Paginate_offset r (ctx : Context) (page pageSize : Z) rows :
  let q :=
    {| gorm.config := gorm.config (repository.db r);
       gorm.pool := gorm.pool (repository.db r);
       gorm.ctx := ctx;
       gorm.model := gorm.model (repository.db r);
       gorm.wheres := gorm.wheres (repository.db r);
       gorm.offset := int_wrap ((page - 1) * pageSize);
       gorm.limit := Some pageSize |} in
  repository.Paginate r ctx page pageSize rows
    = match gorm.Count (gorm.Model (gorm.WithContext (repository.db r) ctx)) rows with
      | (_, Some err) => ([], 0, Some err)
      | (total, None) => (fst (gorm.Find q rows), total, snd (gorm.Find q rows))
      end
  /\ (is_int ((page - 1) * pageSize) -> gorm.offset q = (page - 1) * pageSize)
  /\ (Err ctx = None -> gorm.wheres (repository.db r) = [] ->
      gorm.offset (repository.db r) <= 0 ->
      gorm.limit (repository.db r) <> Some 0 ->
      fst (repository.Paginate r ctx page pageSize rows)
        = (gorm.apply_limit (Some pageSize)
             (gorm.apply_offset (int_wrap ((page - 1) * pageSize)) rows),
           Z.of_nat (length rows))).
Proof.
  cbv zeta. split; [|split].
  - unfold repository.Paginate.
    destruct (gorm.Count _ rows) as [total [e|]]; [reflexivity|].
    rewrite int_mul_sub. unfold gorm.Limit, gorm.Offset, gorm.WithContext. simpl.
    destruct (gorm.Find _ rows) as [entities err]. reflexivity.
  - simpl. apply int_wrap_small.
  - intros Hctx Hw Hoff Hlim. unfold repository.Paginate.
    assert (Hall : List.filter (fun _ : T => true) rows = rows).
    { clear. induction rows as [|x rows IH]; simpl; [reflexivity|].
      rewrite IH. reflexivity. }
    rewrite (Count_plain (gorm.Model (gorm.WithContext (repository.db r) ctx))
               rows (fun _ => true));
      [|exact Hctx|simpl; rewrite Hw; reflexivity|exact Hoff|exact Hlim].
    unfold gorm.Find. simpl. rewrite Hctx, Hw. simpl.
    rewrite int_mul_sub, !Hall. reflexivity.
Qed.

(** C6: when no row carries the key, [FindByID] returns the not-found
    sentinel and leaves the output record alone; so does [FirstWhere] when
    no row satisfies the predicate.  The context is live and the clauses
    already on the repository's handle, if any, are ones the backend can
    evaluate. *)
Theorem FindByID_FirstWhere_not_found r (ctx : Context) rows p :
  Err ctx = None ->
  gorm.conds_filter (gorm.wheres (repository.db r)) = Some p ->
  (forall (id : Z) (out : T),
     (forall x, x ∈ rows -> gorm.pk x <> id) ->
     repository.FindByID r ctx id out rows = (out, Some db.ErrNotFound))
  /\ (forall (query : string) (args : list gorm.Value) f (out : T),
        gorm.filter_of query args = Some f ->
        (forall x, x ∈ rows -> f x = false) ->
        repository.FirstWhere r ctx out query args rows
          = (out, Some db.ErrNotFound)).
Proof.
  intros Hctx Hp. split.
  - intros id out Hnone. unfold repository.FindByID, db.ErrNotFound.
    apply (First_empty _ out (Some id) rows p); [exact Hctx|exact Hp|].
    intros x Hx. rewrite bool_decide_eq_false_2 by (apply Hnone, Hx).
    apply andb_false_r.
  - intros query args f out Hf Hnone.
    unfold repository.FirstWhere, db.ErrNotFound.
    destruct (conds_filter_snoc (gorm.wheres (repository.db r)) p
                {| gorm.query := query; gorm.args := args |} f Hp Hf)
      as (g & Hg & Hgx).
    apply (First_empty _ out None rows g); [exact Hctx|exact Hg|].
    intros x Hx. rewrite Hgx, (Hnone x Hx), andb_false_r. reflexivity.
Qed.

(** C8: a predicate no row satisfies makes [FindWhere] return the empty
    sequence without an error, and [FindAll] on an empty table does the
    same.  The context is live and the clauses already on the repository's
    handle, if any, are ones the backend can evaluate. *)
Theorem FindWhere_FindAll_empty r (ctx : Context) rows p :
  Err ctx = None ->
  gorm.conds_filter (gorm.wheres (repository.db r)) = Some p ->
  (forall (query : string) (args : list gorm.Value) f,
     gorm.filter_of query args = Some f ->
     (forall x, x ∈ rows -> f x = false) ->
     repository.FindWhere r ctx query args rows = ([], None))
  /\ repository.FindAll r ctx [] = ([], None).
Proof.
  intros Hctx Hp. split.
  - intros query args f Hf Hnone. unfold repository.FindWhere.
    destruct (conds_filter_snoc (gorm.wheres (repository.db r)) p
                {| gorm.query := query; gorm.args := args |} f Hp Hf)
      as (g & Hg & Hgx).
    rewrite (Find_empty _ rows g); [reflexivity|exact Hctx|exact Hg|].
    intros x Hx. rewrite Hgx, (Hnone x Hx). apply andb_false_r.
  - unfold repository.FindAll.
    rewrite (Find_empty _ [] p); [reflexivity|exact Hctx|exact Hp|].
    intros x Hx. inversion Hx.
Qed.


(** C7: on a live context the unit of work runs on the handle bound to that
    context.  When it returns nil the table it leaves is the table after the
    call and the call returns nil; when it returns an error the table is the
    one from before the call and that error is returned.  The connection
    manager's [Transaction] behaves the same on its own handle. *)
Theorem Transaction_all_or_nothing r (ctx : Context)
    (fn : gorm.DB -> list T -> list T * option error) rows :
  Err ctx = None ->
  let tx := gorm.WithContext (repository.db r) ctx in
  (forall rows', fn tx rows = (rows', None) ->
     repository.Transaction r ctx fn rows = (rows', None))
  /\ (forall rows' e, fn tx rows = (rows', Some e) ->
        repository.Transaction r ctx fn rows = (rows, Some e))
  /\ (forall (m : db.DB) (g : gorm.DB),
        db.gormDB m = Some g -> Err (gorm.ctx g) = None ->
        (forall rows', fn g rows = (rows', None) ->
           db.Transaction m fn rows = Some (rows', None))
        /\ (forall rows' e, fn g rows = (rows', Some e) ->
              db.Transaction m fn rows = Some (rows, Some e))).
Proof.
  intros Hctx tx. unfold repository.Transaction, gorm.Transaction.
  fold tx. simpl. rewrite Hctx. split; [|split].
  - intros rows' Hfn. rewrite Hfn. reflexivity.
  - intros rows' e Hfn. rewrite Hfn. reflexivity.
  - intros m g Hm Hg. unfold db.Transaction, gorm.Transaction.
    rewrite Hm, Hg. split.
    + intros rows' Hfn. rewrite Hfn. reflexivity.
    + intros rows' e Hfn. rewrite Hfn. reflexivity.
Qed.

(** [Create] hands back the client's error as it is; on a live context
    that is the driver's error, which is not [ErrDuplicateKey]. *)
Lemma Create_never_ErrDuplicateKey r (ctx : Context) (e e' : T) rows rows' err :
  Err ctx = None ->
  repository.Create r ctx e rows = (rows', e', Some err) ->
  Is err ErrDuplicateKey = false.
Proof.
  intros Hctx Hc.
  destruct (Create_error (gorm.WithContext (repository.db r) ctx)
              e rows rows' e' err Hctx Hc) as [text ->].
  reflexivity.
Qed.

End GenericRepository.

(** ** The repository on the test fixtures *)

Section OnTestUsers.

Import repository_test.

Lemma FindByID_FirstWhere_not_found_witness :
  repository.FindByID repo Background 99999 gorm.zero [jane_stored]
    = (gorm.zero, Some db.ErrNotFound)
  /\ repository.FirstWhere repo Background gorm.zero "email = ?"
       [gorm.VStr "nonexistent@example.com"] [jane_stored]
     = (gorm.zero, Some db.ErrNotFound).
Proof.
  pose proof (FindByID_FirstWhere_not_found repo Background [jane_stored]
                (fun _ => true) eq_refl eq_refl) as [Hid Hwhere].
  split.
  - apply Hid. intros x Hx. apply list_elem_of_singleton in Hx. subst x.
    simpl. lia.
  - apply (Hwhere "email = ?" [gorm.VStr "nonexistent@example.com"]
             (fun u => bool_decide (Email u = "nonexistent@example.com"))).
    + reflexivity.
    + intros x Hx. apply list_elem_of_singleton in Hx. subst x. reflexivity.
Defined.

Lemma FindWhere_FindAll_empty_witness :
  repository.FindWhere repo Background "age = ?" [gorm.VInt 99] [jane_stored]
    = ([], None)
  /\ repository.FindAll repo Background [] = ([], None).
Proof.
  pose proof (FindWhere_FindAll_empty repo Background [jane_stored]
                (fun _ => true) eq_refl eq_refl) as [Hwhere Hall].
  split; [|exact Hall].
  apply (Hwhere "age = ?" [gorm.VInt 99] (fun u => bool_decide (Age u = 99))).
  - reflexivity.
  - intros x Hx. apply list_elem_of_singleton in Hx. subst x. reflexivity.
Defined.



Lemma Transaction_all_or_nothing_witness :
  repository.Transaction repo Background create_two []
    = ([ {| ID := 1; Name := "User 1"; Email := "tx1@example.com"; Age := 25 |};
         {| ID := 2; Name := "User 2"; Email := "tx2@example.com"; Age := 30 |} ],
       None)
  /\ repository.Transaction repo Background create_then_fail [jane_stored]
     = ([jane_stored], Some ErrInvalidTransaction).
Proof.
  pose proof (Transaction_all_or_nothing repo Background create_two []
                eq_refl) as (Hcommit & _ & _).
  pose proof (Transaction_all_or_nothing repo Background create_then_fail
                [jane_stored] eq_refl) as (_ & Hrollback & _).
  split.
  - apply Hcommit. reflexivity.
  - apply (Hrollback
             [jane_stored;
              {| ID := 2; Name := "Rollback User";
                 Email := "rollback@example.com"; Age := 25 |}]).
    reflexivity.
Defined.

(** C1: the second of two inserts with the same e-mail address, as in
    "returns error for duplicate email".  [Create] returns the driver's own
    error for the unique index; it is not [ErrDuplicateKey] and does not
    wrap it. *)
Theorem Create_duplicate_email_raw_error :
  repository.Create repo Background user1 []
    = ([with_ID 1 user1], with_ID 1 user1, None)
  /\ repository.Create repo Background user2 [with_ID 1 user1]
     = ([with_ID 1 user1], user2,
        Some (driverError "UNIQUE constraint failed: test_users.email"))
  /\ Is (driverError "UNIQUE constraint failed: test_users.email")
        ErrDuplicateKey = false.
Proof. repeat split. Qed.

(** The pages of [TestPaginate]: fifteen users, five to a page. *)
Example Paginate_fifteen :
  length (seeded 15) = 15%nat
  /\ (forall page, In page [1; 2; 3] ->
      exists entities,
        repository.Paginate repo Background page 5 (seeded 15)
          = (entities, 15, None)
        /\ length entities = 5%nat
        /\ entities = take 5 (drop (Z.to_nat ((page - 1) * 5)) (seeded 15))).
Proof.
  split; [reflexivity|].
  intros page [<-|[<-|[<-|[]]]]; eexists; repeat split.
Qed.

(** A page below one: the offset handed to the client is negative. *)
Example Paginate_page_zero :
  int_mul (int_sub 0 1) 5 = -5
  /\ repository.Paginate repo Background 0 5 (seeded 15)
     = (take 5 (seeded 15), 15, None).
Proof. split; reflexivity. Qed.

End OnTestUsers.

(** * Further properties of the connection manager *)

Section ManagerLifecycle.

Context `{sql.Driver} `{sql.Closer}.

Implicit Types (c : db.Config) (l : db.loc) (d : gorm.Dialector).
Implicit Types (h : gmap db.loc db.Config) (p : sql.DB) (m : db.DB).

Lemma setDefaults_nonzero c :
  db.MaxOpenConns (db.setDefaults c) <> 0
  /\ db.MaxIdleConns (db.setDefaults c) <> 0
  /\ db.ConnMaxLifetime (db.setDefaults c) <> 0
  /\ db.ConnMaxIdleTime (db.setDefaults c) <> 0.
Proof.
  destruct (setDefaults_pool c) as (Ha & Hb & Hcl & Hci).
  rewrite Ha, Hb, Hcl, Hci. clear.
  repeat split; case_decide; try assumption; vm_compute; discriminate.
Qed.

(** X1: [New] returns a manager exactly when it returns no error, and it
    leaves a configured pool behind exactly then.  A nil configuration is
    refused before anything is touched; an error of the dialector comes
    back wrapped, so that [errors.Is] still finds it. *)
Theorem New_result_exclusive (config : option db.loc) d h :
  let r := db.New config d h in
  (is_Some (db.ret r) <-> db.err r = None)
  /\ (is_Some (db.pool_after r) <-> db.err r = None)
  /\ (config = None ->
      r = {| db.heap_after := h; db.pool_after := None; db.ret := None;
             db.err := Some (errorString "config cannot be nil") |})
  /\ (forall l c e, config = Some l -> h !! l = Some c ->
        gorm.Initialize d = Some e ->
        exists e', db.err r = Some e' /\ Is e' e = true
                   /\ Error e' = "failed to connect to database: " +:+ Error e).
Proof.
  cbv zeta. split; [|split; [|split]].
  - unfold db.New. destruct (config ≫= (h !!.)); simpl.
    + destruct (gorm.Open d _); simpl.
      * split; [intros [? ?]|]; discriminate.
      * destruct (gorm.DB' _ _); simpl.
        -- split; [intros [? ?]|]; discriminate.
        -- split; [reflexivity|eauto].
    + split; [intros [? ?]|]; discriminate.
  - unfold db.New. destruct (config ≫= (h !!.)); simpl.
    + destruct (gorm.Open d _); simpl.
      * split; [intros [? ?]|]; discriminate.
      * destruct (gorm.DB' _ _); simpl.
        -- split; [intros [? ?]|]; discriminate.
        -- split; [reflexivity|eauto].
    + split; [intros [? ?]|]; discriminate.
  - intros ->. reflexivity.
  - intros l c e -> Hl Hi. unfold db.New, gorm.Open. simpl.
    rewrite Hl, Hi. simpl. eexists. split; [reflexivity|]. split.
    + apply Is_wrapError, Is_refl.
    + reflexivity.
Qed.

(** X2: once [New] has run, none of the four pool fields of the caller's
    [Config] is zero, and running [New] again on the same [Config], with
    any dialector, leaves every [Config] as the first run left it. *)
Theorem New_config_settled l c d (d' : gorm.Dialector) h :
  h !! l = Some c ->
  let h1 := db.heap_after (db.New (Some l) d h) in
  (exists c1, h1 !! l = Some c1
     /\ db.MaxOpenConns c1 <> 0 /\ db.MaxIdleConns c1 <> 0
     /\ db.ConnMaxLifetime c1 <> 0 /\ db.ConnMaxIdleTime c1 <> 0)
  /\ db.heap_after (db.New (Some l) d' h1) = h1.
Proof.
  intros Hl h1.
  assert (Hh1 : h1 !! l = Some (db.setDefaults c)).
  { subst h1. rewrite (New_heap l c d h Hl). apply lookup_insert_eq. }
  destruct (setDefaults_nonzero c) as (Ha & Hb & Hcl & Hci).
  split.
  - exists (db.setDefaults c). auto.
  - rewrite (New_heap l _ d' h1 Hh1).
    rewrite setDefaults_set by assumption.
    apply insert_id, Hh1.
Qed.

Lemma New_config_settled_witness :
  db.heap_after
    (db.New (Some 1%positive) db_test.sqlite_memory
       (db.heap_after
          (db.New (Some 1%positive) db_test.sqlite_memory
             {[ 1%positive := db_test.unset ]})))
  = db.heap_after
      (db.New (Some 1%positive) db_test.sqlite_memory
         {[ 1%positive := db_test.unset ]}).
Proof.
  apply (New_config_settled 1%positive db_test.unset db_test.sqlite_memory
           db_test.sqlite_memory {[ 1%positive := db_test.unset ]}).
  apply lookup_singleton_eq.
Defined.

(** X3: the manager [New] returns refers to the caller's [Config] and is
    connected: on the pool [New] configured, [Ping] is the pool's own
    liveness check, [Close] is the pool's own [Close], and [HealthCheck]
    never reports [ErrNotConnected]. *)
Theorem New_manager_connected l c d h p :
  h !! l = Some c ->
  gorm.Initialize d = None -> gorm.ConnPool_of d = Some p ->
  exists m pool,
    db.ret (db.New (Some l) d h) = Some m
    /\ db.pool_after (db.New (Some l) d h) = Some pool
    /\ db.config m = Some l
    /\ (forall ctx, db.Ping m ctx pool = sql.PingContext ctx pool)
    /\ db.Close m pool = sql.Close pool
    /\ (forall ctx, snd (db.HealthCheck m ctx pool) <> Some ErrNotConnected).
Proof.
  intros Hl Hi Hp. unfold db.New, gorm.Open, gorm.DB'. simpl.
  rewrite Hl, Hi, Hp. simpl. eexists. eexists.
  split; [reflexivity|]. split; [reflexivity|]. split; [reflexivity|].
  split; [|split].
  - intros ctx. unfold db.Ping, gorm.DB'. simpl. reflexivity.
  - unfold db.Close, gorm.DB'. simpl. reflexivity.
  - intros ctx. unfold db.HealthCheck, gorm.DB'. simpl.
    destruct (sql.PingContext ctx _) as [q [e|]]; simpl; [discriminate|].
    case_decide; simpl; discriminate.
Qed.

(** X4: on a manager without a handle [Ping], [HealthCheck], [Close] and
    [Stats] return [ErrNotConnected] and leave the pool alone, while
    [WithContext] and [Transaction], which have no such guard, dereference
    the nil handle.  On a handle whose pool is not a [*sql.DB] the first
    four fail with [ErrInvalidDB], which only [HealthCheck] wraps. *)
Theorem manager_without_pool m (ctx : Context) p (Duration_String : Z -> string) :
  (db.gormDB m = None ->
     db.Ping m ctx p = (p, Some ErrNotConnected)
     /\ db.HealthCheck m ctx p = (p, Some ErrNotConnected)
     /\ db.Close m p = (p, Some ErrNotConnected)
     /\ db.Stats Duration_String m p = (None, Some ErrNotConnected)
     /\ db.WithContext m ctx = None
     /\ (forall (T : Type) (S : gorm.Schema T) fn (rows : list T),
           db.Transaction m fn rows = None))
  /\ (forall g, db.gormDB m = Some g -> gorm.pool g = gorm.OtherPool ->
        db.Ping m ctx p = (p, Some ErrInvalidDB)
        /\ db.HealthCheck m ctx p
           = (p, Some (wrapError "failed to get database instance" ErrInvalidDB))
        /\ db.Close m p = (p, Some ErrInvalidDB)
        /\ db.Stats Duration_String m p = (None, Some ErrInvalidDB)).
Proof.
  split.
  - intros Hm. unfold db.Ping, db.HealthCheck, db.Close, db.Stats,
      db.WithContext, db.Transaction. rewrite Hm. repeat split.
  - intros g Hm Hg. unfold db.Ping, db.HealthCheck, db.Close, db.Stats,
      gorm.DB'. rewrite Hm, Hg. repeat split.
Qed.

(** X5: [HealthCheck] succeeds exactly when [Ping] succeeds and the pool
    then reports an open connection, and in every case it leaves the pool
    in the state [Ping] leaves it in. *)
Theorem HealthCheck_iff m (ctx : Context) p :
  (snd (db.HealthCheck m ctx p) = None
   <-> snd (db.Ping m ctx p) = None
       /\ sql.OpenConnections (sql.Stats (fst (db.Ping m ctx p))) <> 0)
  /\ fst (db.HealthCheck m ctx p) = fst (db.Ping m ctx p).
Proof.
  unfold db.HealthCheck, db.Ping.
  destruct (db.gormDB m) as [g|]; simpl.
  2: { split; [|reflexivity]. split; [discriminate|intros [? _]; discriminate]. }
  destruct (gorm.DB' g (Some p)) as [e|q]; simpl.
  { split; [|reflexivity]. split; [discriminate|intros [? _]; discriminate]. }
  destruct (sql.PingContext ctx q) as [q' [e|]]; simpl.
  { split; [|reflexivity]. split; [discriminate|intros [? _]; discriminate]. }
  case_decide; simpl; split; try reflexivity.
  - split; [discriminate|intros [_ Hne]; contradiction].
  - split; [auto|reflexivity].
Qed.

(** X6: a view made by [WithContext] shares the manager's [Config] and
    pool: [Ping], [HealthCheck], [Close] and [Stats] through the view are
    the calls on the manager itself, and binding another context to the
    view is binding it to the manager. *)
Theorem WithContext_view m (c : Context) (v : db.DB) :
  db.WithContext m c = Some v ->
  db.config v = db.config m
  /\ (forall ctx p, db.Ping v ctx p = db.Ping m ctx p)
  /\ (forall ctx p, db.HealthCheck v ctx p = db.HealthCheck m ctx p)
  /\ (forall p, db.Close v p = db.Close m p)
  /\ (forall ds p, db.Stats ds v p = db.Stats ds m p)
  /\ (forall ctx, db.WithContext v ctx = db.WithContext m ctx).
Proof.
  unfold db.WithContext. destruct (db.gormDB m) as [g|] eqn:Hm; [|discriminate].
  intros Hv. inversion Hv; subst v; clear Hv.
  unfold db.Ping, db.HealthCheck, db.Close, db.Stats. simpl. rewrite Hm.
  repeat split.
Qed.

(** X7: on a connected manager [Stats] returns a map with exactly the
    eight documented keys, each holding the pool's counter of that name
    (the wait duration as text), and returns no error. *)
Theorem Stats_keys m (g : gorm.DB) p (Duration_String : Z -> string) :
  db.gormDB m = Some g -> gorm.pool g = gorm.SqlDB ->
  exists mp : gmap string db.any,
    db.Stats Duration_String m p = (Some mp, None)
    /\ dom mp = list_to_set
         ["max_open_connections"; "open_connections"; "in_use"; "idle";
          "wait_count"; "wait_duration"; "max_idle_closed";
          "max_lifetime_closed"]
    /\ mp !! "max_open_connections"
       = Some (db.AnyInt (sql.MaxOpenConnections (sql.Stats p)))
    /\ mp !! "open_connections"
       = Some (db.AnyInt (sql.OpenConnections (sql.Stats p)))
    /\ mp !! "in_use" = Some (db.AnyInt (sql.InUse (sql.Stats p)))
    /\ mp !! "idle" = Some (db.AnyInt (sql.Idle (sql.Stats p)))
    /\ mp !! "wait_count" = Some (db.AnyInt (sql.WaitCount (sql.Stats p)))
    /\ mp !! "wait_duration"
       = Some (db.AnyString (Duration_String (sql.WaitDuration (sql.Stats p))))
    /\ mp !! "max_idle_closed"
       = Some (db.AnyInt (sql.MaxIdleClosed (sql.Stats p)))
    /\ mp !! "max_lifetime_closed"
       = Some (db.AnyInt (sql.MaxLifetimeClosed (sql.Stats p))).
Proof.
  intros Hm Hg. unfold db.Stats, gorm.DB'. rewrite Hm, Hg.
  eexists. split; [reflexivity|]. split.
  - rewrite !dom_insert_L, dom_empty_L. simpl. set_solver.
  - repeat split; simplify_map_eq; reflexivity.
Qed.

End ManagerLifecycle.

Lemma New_manager_connected_witness :
  exists m pool,
    db.ret (db.New (Some 1%positive) db_test.sqlite_memory
              {[ 1%positive := db_test.unset ]}) = Some m
    /\ db.pool_after (db.New (Some 1%positive) db_test.sqlite_memory
                        {[ 1%positive := db_test.unset ]}) = Some pool
    /\ @db.Ping db_test.answering m Background pool = (pool, None).
Proof.
  destruct (@New_manager_connected db_test.answering db_test.closing
              1%positive db_test.unset db_test.sqlite_memory
              {[ 1%positive := db_test.unset ]} db_test.fresh_pool)
    as (m & pool & Hm & Hpool & _ & Hping & _).
  - apply lookup_singleton_eq.
  - reflexivity.
  - reflexivity.
  - exists m, pool. split; [exact Hm|]. split; [exact Hpool|].
    rewrite Hping. reflexivity.
Defined.

Lemma WithContext_view_witness :
  exists v, db.WithContext db_test.manager cancelled = Some v
    /\ @db.HealthCheck db_test.answering v Background db_test.busy_pool
       = (db_test.busy_pool, None).
Proof.
  eexists. split; [reflexivity|].
  rewrite (proj1 (proj2 (proj2 (@WithContext_view db_test.answering
                                  db_test.closing db_test.manager cancelled
                                  _ eq_refl)))).
  reflexivity.
Defined.

Lemma Stats_keys_witness :
  exists mp : gmap string db.any,
    db.Stats (fun _ => "0s") db_test.manager db_test.busy_pool = (Some mp, None)
    /\ mp !! "open_connections" = Some (db.AnyInt 3)
    /\ mp !! "closed" = None.
Proof.
  destruct (@Stats_keys db_test.manager repository_test.setupTestDB
              db_test.busy_pool (fun _ => "0s") eq_refl eq_refl)
    as (mp & Hs & Hdom & _ & Hopen & _).
  exists mp. split; [exact Hs|]. split; [exact Hopen|].
  apply not_elem_of_dom. rewrite Hdom. vm_compute. set_solver.
Defined.

(** * Further properties of the generic repository *)

Section RepositoryOperations.

Context {T : Type} `{gorm.Schema T}.

Implicit Types (r : repository.Repository T) (rows : list T) (p f : T -> bool).

(** X8: once the context is cancelled or past its deadline, every
    operation of the repository returns the context's error, hands back
    the caller's record as it was and leaves the table alone; a unit of
    work passed to [Transaction] is not run, also not through a view the
    connection manager bound to that context. *)
Theorem cancelled_context_aborts r (ctx : Context) (e : error) rows :
  Err ctx = Some e ->
  (forall entity,
     repository.Create r ctx entity rows = (rows, entity, Some e)
     /\ repository.Update r ctx entity rows = (rows, entity, Some e)
     /\ repository.Delete r ctx entity rows = (rows, Some e))
  /\ (forall id, repository.DeleteByID r ctx id rows = (rows, Some e))
  /\ (forall id out, repository.FindByID r ctx id out rows = (out, Some e))
  /\ (forall out query args,
        repository.FirstWhere r ctx out query args rows = (out, Some e))
  /\ (forall query args,
        repository.FindWhere r ctx query args rows = ([], Some e))
  /\ repository.FindAll r ctx rows = ([], Some e)
  /\ repository.Count r ctx rows = (0, Some e)
  /\ (forall page pageSize,
        repository.Paginate r ctx page pageSize rows = ([], 0, Some e))
  /\ (forall fn, repository.Transaction r ctx fn rows = (rows, Some e))
  /\ (forall (m v : db.DB) fn,
        db.WithContext m ctx = Some v ->
        db.Transaction v fn rows = Some (rows, Some e)).
Proof.
  intros Hctx.
  unfold repository.Create, repository.Update, repository.Delete,
    repository.DeleteByID, repository.FindByID, repository.FirstWhere,
    repository.FindWhere, repository.FindAll, repository.Count,
    repository.Paginate, repository.Transaction.
  unfold gorm.Save, gorm.Create, gorm.Delete, gorm.First, gorm.Find,
    gorm.Count, gorm.Transaction. simpl. rewrite Hctx.
  split_and!; try (intros; reflexivity).
  - intros entity. split_and!; try reflexivity.
    destruct (decide (gorm.pk entity = 0)); reflexivity.
  - intros m v fn Hv. unfold db.WithContext in Hv.
    destruct (db.gormDB m) as [g|] eqn:Hm; [|discriminate].
    inversion Hv; subst v.
    unfold db.Transaction, gorm.Transaction. simpl. rewrite Hctx. reflexivity.
Qed.

(** X9: a write that returns an error has changed nothing: [Create] and
    [Update] leave the table and the caller's record as they were, and
    [Delete] and [DeleteByID] leave the table as it was. *)
Theorem failed_write_changes_nothing r (ctx : Context) rows :
  (forall entity,
     (snd (repository.Create r ctx entity rows) <> None ->
      fst (repository.Create r ctx entity rows) = (rows, entity))
     /\ (snd (repository.Update r ctx entity rows) <> None ->
         fst (repository.Update r ctx entity rows) = (rows, entity))
     /\ (snd (repository.Delete r ctx entity rows) <> None ->
         fst (repository.Delete r ctx entity rows) = rows))
  /\ (forall id,
        snd (repository.DeleteByID r ctx id rows) <> None ->
        fst (repository.DeleteByID r ctx id rows) = rows).
Proof.
  assert (Hcreate : forall g entity,
    snd (gorm.Create g entity rows) <> None ->
    fst (gorm.Create g entity rows) = (rows, entity)).
  { intros g entity. unfold gorm.Create.
    destruct (Err (gorm.ctx g)); [reflexivity|].
    destruct (gorm.violated _ rows); simpl; [reflexivity|congruence]. }
  assert (Hdelete : forall g entity conds,
    snd (gorm.Delete g entity conds rows) <> None ->
    fst (gorm.Delete g entity conds rows) = rows).
  { intros g entity conds. unfold gorm.Delete.
    destruct (Err (gorm.ctx g)); [reflexivity|].
    destruct (gorm.wheres g), conds, (decide (gorm.pk entity = 0));
      try reflexivity;
      destruct (gorm.conds_filter _); simpl; try reflexivity; congruence. }
  split; [intros entity; split; [|split]|intros id].
  - apply Hcreate.
  - unfold repository.Update, gorm.Save.
    destruct (decide (gorm.pk entity = 0)); [apply Hcreate|].
    destruct (Err _); [reflexivity|].
    destruct (gorm.conds_filter _); [|reflexivity].
    destruct (gorm.violated _ _); [reflexivity|].
    destruct (existsb _ rows); simpl; congruence.
  - apply Hdelete.
  - apply Hdelete.
Qed.

Lemma filter_all rows : List.filter (fun _ : T => true) rows = rows.
Proof.
  induction rows as [|x rows IH]; simpl; [reflexivity|]. rewrite IH. reflexivity.
Qed.

(** X10: on a handle without limit and offset, [Count] returns the number
    of records [FindAll] returns, with the same error; on a live context
    and a handle without clauses, [FindAll] returns the whole table in its
    order, and a successful [Create] raises the count by exactly one. *)
Theorem Count_is_length_of_FindAll r (ctx : Context) rows :
  gorm.limit (repository.db r) = None ->
  gorm.offset (repository.db r) <= 0 ->
  fst (repository.Count r ctx rows)
    = Z.of_nat (length (fst (repository.FindAll r ctx rows)))
  /\ snd (repository.Count r ctx rows) = snd (repository.FindAll r ctx rows)
  /\ (Err ctx = None -> gorm.wheres (repository.db r) = [] ->
      repository.FindAll r ctx rows = (rows, None)
      /\ forall ctx' entity rows' entity',
           repository.Create r ctx' entity rows = (rows', entity', None) ->
           fst (repository.Count r ctx rows')
             = fst (repository.Count r ctx rows) + 1).
Proof.
  intros Hlim Hoff.
  unfold repository.Count, repository.FindAll, gorm.Count, gorm.Find. simpl.
  destruct (Err ctx) as [e|] eqn:Hctx.
  { split; [reflexivity|]. split; [reflexivity|]. discriminate. }
  rewrite Hlim. destruct (Z.ltb_spec 0 (gorm.offset (repository.db r))); [lia|].
  split; [|split].
  - destruct (gorm.conds_filter _); simpl; [|reflexivity].
    rewrite apply_offset_none by exact Hoff. reflexivity.
  - destruct (gorm.conds_filter _); reflexivity.
  - intros _ Hw. rewrite Hw. simpl.
    rewrite apply_offset_none by exact Hoff. simpl.
    rewrite filter_all. split; [reflexivity|].
    intros ctx' entity rows' entity' Hc.
    apply Create_ok in Hc as (_ & _ & -> & _).
    rewrite !filter_all, length_app. simpl. lia.
Qed.

Lemma filter_sublist f rows : sublist (List.filter f rows) rows.
Proof.
  induction rows as [|x rows IH]; simpl; [constructor|].
  destruct (f x); [apply sublist_skip|apply sublist_cons]; exact IH.
Qed.

Lemma filter_elem_of f rows x :
  x ∈ List.filter f rows <-> x ∈ rows /\ f x = true.
Proof. rewrite !list_elem_of_In. apply List.filter_In. Qed.

(** The first row in primary-key order is a row of the list with the least
    key. *)
Lemma order_by_pk_head rows :
  match head (gorm.order_by_pk rows) with
  | None => rows = []
  | Some x => x ∈ rows /\ forall y, y ∈ rows -> gorm.pk x <= gorm.pk y
  end.
Proof.
  induction rows as [|a rows IH]; simpl; [reflexivity|].
  destruct (gorm.order_by_pk rows) as [|x' t]; simpl in *.
  - subst rows. split; [apply list_elem_of_here|].
    intros y Hy. apply list_elem_of_singleton in Hy. subst y. lia.
  - destruct IH as [Hx' Hmin].
    destruct (Z.leb_spec (gorm.pk a) (gorm.pk x')); simpl.
    + split; [apply list_elem_of_here|].
      intros y Hy. apply elem_of_cons in Hy as [->|Hy]; [lia|].
      specialize (Hmin y Hy). lia.
    + split; [apply list_elem_of_further, Hx'|].
      intros y Hy. apply elem_of_cons in Hy as [->|Hy]; [lia|].
      apply Hmin, Hy.
Qed.

(** [First] into a blank record, on a handle that skips no rows: the
    selected row with the least key, or [ErrRecordNotFound]. *)
Lemma First_selected (g : gorm.DB) (dest : T) (conds : option Z) rows p :
  Err (gorm.ctx g) = None ->
  gorm.conds_filter (gorm.wheres g) = Some p ->
  gorm.offset g <= 0 ->
  gorm.pk dest = 0 ->
  let sel :=
    List.filter
      (fun x => p x && match conds with
                       | Some id => bool_decide (gorm.pk x = id)
                       | None => true
                       end) rows in
  (sel = [] /\ gorm.First g dest conds rows = (dest, Some ErrRecordNotFound))
  \/ (exists x, gorm.First g dest conds rows = (x, None)
                /\ x ∈ sel /\ forall y, y ∈ sel -> gorm.pk x <= gorm.pk y).
Proof.
  intros Hctx Hp Hoff Hdest sel. unfold gorm.First. rewrite Hctx, Hp.
  rewrite apply_offset_none by exact Hoff.
  rewrite (List.filter_ext _
             (fun x => p x && match conds with
                              | Some id => bool_decide (gorm.pk x = id)
                              | None => true
                              end)).
  2: { intros x. rewrite (bool_decide_eq_true_2 _ Hdest). simpl.
       apply andb_true_r. }
  fold sel. pose proof (order_by_pk_head sel) as Hhead.
  destruct (head (gorm.order_by_pk sel)) as [x|].
  - right. exists x. split; [reflexivity|exact Hhead].
  - left. split; [exact Hhead|reflexivity].
Qed.

(** X11: on a live context and a handle without limit and offset,
    [FindWhere] returns, in table order, exactly the rows that satisfy the
    predicate (and the clauses already on the handle), and no error. *)
Theorem FindWhere_selects r (ctx : Context) (query : string)
    (args : list gorm.Value) rows p f :
  Err ctx = None ->
  gorm.conds_filter (gorm.wheres (repository.db r)) = Some p ->
  gorm.filter_of query args = Some f ->
  gorm.limit (repository.db r) = None ->
  gorm.offset (repository.db r) <= 0 ->
  exists found,
    repository.FindWhere r ctx query args rows = (found, None)
    /\ sublist found rows
    /\ (forall x, x ∈ found <-> x ∈ rows /\ p x = true /\ f x = true)
    /\ (gorm.wheres (repository.db r) = [] -> found = List.filter f rows).
Proof.
  intros Hctx Hp Hf Hlim Hoff.
  destruct (conds_filter_snoc (gorm.wheres (repository.db r)) p
              {| gorm.query := query; gorm.args := args |} f Hp Hf)
    as (g & Hg & Hgx).
  unfold repository.FindWhere, gorm.Find. simpl. rewrite Hctx, Hg, Hlim.
  rewrite apply_offset_none by exact Hoff. simpl.
  eexists. split; [reflexivity|]. split; [apply filter_sublist|]. split.
  - intros x. rewrite filter_elem_of, Hgx, andb_true_iff. tauto.
  - intros Hw. rewrite Hw in Hp. simpl in Hp. inversion Hp; subst p.
    apply List.filter_ext. intros x. rewrite Hgx. reflexivity.
Qed.

(** X12: [FirstWhere] into a blank record finds a record exactly when
    [FindWhere] finds some: it fails with the not-found sentinel when
    [FindWhere] returns nothing, and otherwise returns the one of
    [FindWhere]'s records with the least primary key. *)
Theorem FirstWhere_least_of_FindWhere r (ctx : Context) (query : string)
    (args : list gorm.Value) (out : T) rows p f :
  Err ctx = None ->
  gorm.conds_filter (gorm.wheres (repository.db r)) = Some p ->
  gorm.filter_of query args = Some f ->
  gorm.limit (repository.db r) = None ->
  gorm.offset (repository.db r) <= 0 ->
  gorm.pk out = 0 ->
  let found := fst (repository.FindWhere r ctx query args rows) in
  (found = []
   /\ repository.FirstWhere r ctx out query args rows
      = (out, Some db.ErrNotFound))
  \/ (exists x,
        repository.FirstWhere r ctx out query args rows = (x, None)
        /\ x ∈ found /\ forall y, y ∈ found -> gorm.pk x <= gorm.pk y).
Proof.
  intros Hctx Hp Hf Hlim Hoff Hout found.
  destruct (conds_filter_snoc (gorm.wheres (repository.db r)) p
              {| gorm.query := query; gorm.args := args |} f Hp Hf)
    as (g & Hg & Hgx).
  assert (Hfound : found = List.filter (fun x => g x && true) rows).
  { subst found. unfold repository.FindWhere, gorm.Find. simpl.
    rewrite Hctx, Hg, Hlim, apply_offset_none by exact Hoff. simpl.
    apply List.filter_ext. intros x. symmetry. apply andb_true_r. }
  rewrite Hfound. unfold repository.FirstWhere, db.ErrNotFound.
  apply (First_selected
           (gorm.Where (gorm.WithContext (repository.db r) ctx) query args)
           out None rows g); assumption.
Qed.

(** X13: [FindByID] into a blank record succeeds exactly when some row
    carries the key (and satisfies the clauses on the handle); the record
    it returns is a row of the table with that key, and it is the row when
    keys are unique. *)
Theorem FindByID_finds r (ctx : Context) (id : Z) (out : T) rows p :
  Err ctx = None ->
  gorm.conds_filter (gorm.wheres (repository.db r)) = Some p ->
  gorm.offset (repository.db r) <= 0 ->
  gorm.pk out = 0 ->
  (snd (repository.FindByID r ctx id out rows) = None
   <-> exists x, x ∈ rows /\ gorm.pk x = id /\ p x = true)
  /\ (forall e, repository.FindByID r ctx id out rows = (e, None) ->
        e ∈ rows /\ gorm.pk e = id /\ p e = true)
  /\ (forall x, NoDup (gorm.pk <$> rows) ->
        x ∈ rows -> gorm.pk x = id -> p x = true ->
        repository.FindByID r ctx id out rows = (x, None)).
Proof.
  intros Hctx Hp Hoff Hout. unfold repository.FindByID.
  pose proof (First_selected (gorm.WithContext (repository.db r) ctx)
                out (Some id) rows p Hctx Hp Hoff Hout) as Hsel.
  cbv beta iota zeta in Hsel.
  remember (List.filter
              (fun x => p x && bool_decide (gorm.pk x = id)) rows) as sel
    eqn:Hsel_def in *.
  assert (Hin : forall x, x ∈ sel <-> x ∈ rows /\ gorm.pk x = id /\ p x = true).
  { intros x. rewrite Hsel_def, filter_elem_of, andb_true_iff, bool_decide_eq_true.
    tauto. }
  clear Hsel_def.
  destruct Hsel as [[Hnil Hres]|(x & Hres & Hx & _)]; rewrite Hres; simpl.
  - split; [|split].
    + split; [discriminate|]. intros (x & Hx). apply Hin in Hx.
      rewrite Hnil in Hx. inversion Hx.
    + intros e He. discriminate He.
    + intros x _ Hx Hid Hpx. exfalso.
      assert (Hs : x ∈ sel) by (apply Hin; auto).
      rewrite Hnil in Hs. inversion Hs.
  - split; [|split].
    + split; [|reflexivity]. intros _. exists x. apply Hin, Hx.
    + intros e He. inversion He; subst e. apply Hin, Hx.
    + intros y Hnd Hy Hid Hpy. f_equal.
      apply Hin in Hx as (Hxr & Hxid & _).
      apply list_elem_of_lookup in Hxr as [i Hi].
      apply list_elem_of_lookup in Hy as [j Hj].
      assert (i = j) as ->.
      { apply (NoDup_lookup (gorm.pk <$> rows) i j id Hnd);
          rewrite list_lookup_fmap; [rewrite Hi|rewrite Hj]; simpl; congruence. }
      congruence.
Qed.

(** [Delete] with some condition to go by: the rows it removes. *)
Lemma Delete_removes (g : gorm.DB) (value : T) (conds : option Z) rows p :
  Err (gorm.ctx g) = None ->
  gorm.conds_filter (gorm.wheres g) = Some p ->
  is_Some conds \/ gorm.pk value <> 0 ->
  gorm.Delete g value conds rows
  = (List.filter
       (fun x => negb (p x
                       && match conds with
                          | Some id => bool_decide (gorm.pk x = id)
                          | None => true
                          end
                       && (bool_decide (gorm.pk value = 0)
                           || bool_decide (gorm.pk x = gorm.pk value))))
       rows, None).
Proof.
  intros Hctx Hp Hcond. unfold gorm.Delete. rewrite Hctx.
  destruct (gorm.wheres g) as [|c cs] eqn:Hw.
  - destruct conds as [id|].
    + rewrite Hp. reflexivity.
    + destruct (decide (gorm.pk value = 0)) as [Hz|Hnz].
      * destruct Hcond as [[? Hs]|Hne]; [discriminate|contradiction].
      * rewrite Hp. reflexivity.
  - rewrite Hp. reflexivity.
Qed.

(** X14: on a live context [DeleteByID], and [Delete] of a record that
    carries a key, succeed, remove the rows with that key and no other
    row, keep the remaining rows in their order, and make a following
    [FindByID] with that key fail with the not-found sentinel. *)
Theorem Delete_then_FindByID_not_found r (ctx ctx' : Context) rows p :
  Err ctx = None -> Err ctx' = None ->
  gorm.conds_filter (gorm.wheres (repository.db r)) = Some p ->
  gorm.pk (gorm.zero : T) = 0 ->
  (forall id, exists rows',
     repository.DeleteByID r ctx id rows = (rows', None)
     /\ sublist rows' rows
     /\ (forall x, x ∈ rows' <->
           x ∈ rows /\ ~ (gorm.pk x = id /\ p x = true))
     /\ forall out,
          repository.FindByID r ctx' id out rows' = (out, Some db.ErrNotFound))
  /\ (forall entity, gorm.pk entity <> 0 -> exists rows',
        repository.Delete r ctx entity rows = (rows', None)
        /\ sublist rows' rows
        /\ (forall x, x ∈ rows' <->
              x ∈ rows /\ ~ (gorm.pk x = gorm.pk entity /\ p x = true))
        /\ forall out,
             repository.FindByID r ctx' (gorm.pk entity) out rows'
               = (out, Some db.ErrNotFound)).
Proof.
  intros Hctx Hctx' Hp Hzero.
  assert (Hfind : forall id rows',
    (forall x, x ∈ rows' -> ~ (gorm.pk x = id /\ p x = true)) ->
    forall out,
      repository.FindByID r ctx' id out rows' = (out, Some db.ErrNotFound)).
  { intros id rows' Hnone out. unfold repository.FindByID, db.ErrNotFound.
    apply (First_empty _ out (Some id) rows' p); [exact Hctx'|exact Hp|].
    intros x Hx. specialize (Hnone x Hx).
    destruct (p x) eqn:Hpx; [|reflexivity]. simpl.
    apply bool_decide_eq_false_2. intros Hid. apply Hnone. auto. }
  split.
  - intros id. unfold repository.DeleteByID.
    rewrite (Delete_removes (gorm.WithContext (repository.db r) ctx)
               gorm.zero (Some id) rows p Hctx Hp)
      by (left; eauto).
    eexists. split; [reflexivity|]. split; [apply filter_sublist|].
    assert (Hin : forall x,
      x ∈ List.filter
            (fun x => negb (p x && bool_decide (gorm.pk x = id)
                            && (bool_decide (gorm.pk (gorm.zero : T) = 0)
                                || bool_decide (gorm.pk x = gorm.pk (gorm.zero : T)))))
            rows
      <-> x ∈ rows /\ ~ (gorm.pk x = id /\ p x = true)).
    { intros x. rewrite filter_elem_of.
      rewrite (bool_decide_eq_true_2 _ Hzero). simpl. rewrite andb_true_r.
      rewrite negb_true_iff, andb_false_iff, bool_decide_eq_false.
      destruct (p x); intuition congruence. }
    split; [exact Hin|]. apply Hfind. intros x Hx. apply Hin, Hx.
  - intros entity Hkey. unfold repository.Delete.
    rewrite (Delete_removes (gorm.WithContext (repository.db r) ctx)
               entity None rows p Hctx Hp) by (right; exact Hkey).
    eexists. split; [reflexivity|]. split; [apply filter_sublist|].
    assert (Hin : forall x,
      x ∈ List.filter
            (fun x => negb (p x && true
                            && (bool_decide (gorm.pk entity = 0)
                                || bool_decide (gorm.pk x = gorm.pk entity))))
            rows
      <-> x ∈ rows /\ ~ (gorm.pk x = gorm.pk entity /\ p x = true)).
    { intros x. rewrite filter_elem_of.
      rewrite (bool_decide_eq_false_2 _ Hkey). simpl. rewrite andb_true_r.
      rewrite negb_true_iff, andb_false_iff, bool_decide_eq_false.
      destruct (p x); intuition congruence. }
    split; [exact Hin|]. apply Hfind. intros x Hx. apply Hin, Hx.
Qed.

(** X15: the two edges of deleting.  [DeleteByID] with a key no row
    carries succeeds and leaves the table as it is.  [Delete] of a record
    without a key, through a handle without clauses, is refused with
    "WHERE conditions required" and removes nothing: it never empties the
    table. *)
Theorem Delete_edges r (ctx : Context) rows :
  Err ctx = None ->
  (forall id p,
     gorm.conds_filter (gorm.wheres (repository.db r)) = Some p ->
     gorm.pk (gorm.zero : T) = 0 ->
     (forall x, x ∈ rows -> gorm.pk x <> id) ->
     repository.DeleteByID r ctx id rows = (rows, None))
  /\ (forall entity,
        gorm.pk entity = 0 -> gorm.wheres (repository.db r) = [] ->
        repository.Delete r ctx entity rows
          = (rows, Some (errorString "WHERE conditions required"))).
Proof.
  intros Hctx. split.
  - intros id p Hp Hzero Hnone. unfold repository.DeleteByID.
    rewrite (Delete_removes (gorm.WithContext (repository.db r) ctx)
               gorm.zero (Some id) rows p Hctx Hp)
      by (left; eauto).
    f_equal. rewrite <- (filter_all rows) at 2.
    apply List.filter_ext_in. intros x Hx.
    apply list_elem_of_In in Hx.
    rewrite (bool_decide_eq_false_2 _ (Hnone x Hx)), andb_false_r.
    reflexivity.
  - intros entity Hkey Hw. unfold repository.Delete, gorm.Delete. simpl.
    rewrite Hctx, Hw. destruct (decide (gorm.pk entity = 0)); [reflexivity|].
    contradiction.
Qed.

(** What a successful [Save] of a record with a key leaves behind. *)
Lemma Save_ok (g : gorm.DB) (value value' : T) rows rows' :
  gorm.pk value <> 0 ->
  gorm.Save g value rows = (rows', value', None) ->
  value' = value
  /\ ((exists x, x ∈ rows /\ gorm.pk x = gorm.pk value)
      /\ rows' = map (fun x => if bool_decide (gorm.pk x = gorm.pk value)
                               then value else x) rows
      \/ (forall x, x ∈ rows -> gorm.pk x <> gorm.pk value)
         /\ rows' = rows ++ [value]).
Proof.
  intros Hkey. unfold gorm.Save.
  destruct (decide (gorm.pk value = 0)); [contradiction|].
  destruct (Err (gorm.ctx g)); [discriminate|].
  destruct (gorm.conds_filter _); [|discriminate].
  destruct (gorm.violated _ _); [discriminate|].
  destruct (existsb _ rows) eqn:Hex; intros Heq; inversion Heq; subst;
    (split; [reflexivity|]).
  - left. split; [|reflexivity].
    apply existsb_exists in Hex as (x & Hx & Hpk).
    exists x. split; [apply list_elem_of_In, Hx|].
    apply bool_decide_eq_true in Hpk. exact Hpk.
  - right. split; [|reflexivity]. intros x Hx Hpk.
    assert (Ht : existsb (fun x => bool_decide (gorm.pk x = gorm.pk value')) rows
                 = true); [|congruence].
    apply existsb_exists. exists x. split; [apply list_elem_of_In, Hx|].
    apply bool_decide_eq_true_2, Hpk.
Qed.

Lemma replaced_keys (value : T) rows :
  gorm.pk <$> map (fun x => if bool_decide (gorm.pk x = gorm.pk value)
                            then value else x) rows
  = gorm.pk <$> rows.
Proof.
  induction rows as [|x rows IH]; [reflexivity|].
  cbn [map]. rewrite !fmap_cons, IH. f_equal. case_bool_decide; congruence.
Qed.

Lemma replaced_elem_of (value : T) rows y :
  y ∈ map (fun x => if bool_decide (gorm.pk x = gorm.pk value)
                    then value else x) rows
  <-> (y = value /\ exists x, x ∈ rows /\ gorm.pk x = gorm.pk value)
      \/ (y ∈ rows /\ gorm.pk y <> gorm.pk value).
Proof.
  rewrite list_elem_of_In, in_map_iff. split.
  - intros (x & Hy & Hx). apply list_elem_of_In in Hx.
    case_bool_decide; subst y; [left|right]; eauto.
  - intros [[-> (x & Hx & Hpk)]|[Hy Hpk]].
    + exists x. rewrite bool_decide_eq_true_2 by exact Hpk.
      split; [reflexivity|apply list_elem_of_In, Hx].
    + exists y. rewrite bool_decide_eq_false_2 by exact Hpk.
      split; [reflexivity|apply list_elem_of_In, Hy].
Qed.

(** X16: after a successful [Update] of a record that carries a key,
    [FindByID] with that key into a blank record returns the record as it
    was passed to [Update].  Rows with other keys are the ones from before;
    the table keeps its length when the key was present and grows by the
    record when it was not. *)
Theorem Update_then_FindByID r (ctx ctx' : Context) (e e' out : T)
    rows rows' p :
  repository.Update r ctx e rows = (rows', e', None) ->
  gorm.pk e <> 0 ->
  Err ctx' = None ->
  gorm.conds_filter (gorm.wheres (repository.db r)) = Some p ->
  p e = true ->
  gorm.offset (repository.db r) <= 0 ->
  gorm.pk out = 0 ->
  e' = e
  /\ repository.FindByID r ctx' (gorm.pk e) out rows' = (e, None)
  /\ (forall x, gorm.pk x <> gorm.pk e -> (x ∈ rows' <-> x ∈ rows))
  /\ ((exists x, x ∈ rows /\ gorm.pk x = gorm.pk e) ->
      length rows' = length rows)
  /\ ((forall x, x ∈ rows -> gorm.pk x <> gorm.pk e) -> rows' = rows ++ [e]).
Proof.
  intros Hupd Hkey Hctx' Hp Hpe Hoff Hout.
  apply Save_ok in Hupd as [-> Hrows]; [|exact Hkey].
  assert (Hin : forall y, y ∈ rows' ->
            gorm.pk y = gorm.pk e -> y = e).
  { intros y Hy Hpk. destruct Hrows as [[_ ->]|[Hnone ->]].
    - apply replaced_elem_of in Hy as [[-> _]|[_ Hne]];
        [reflexivity|contradiction].
    - apply elem_of_app in Hy as [Hy|Hy].
      + destruct (Hnone y Hy Hpk).
      + apply list_elem_of_singleton in Hy. exact Hy. }
  assert (He : e ∈ rows').
  { destruct Hrows as [[Hex ->]|[_ ->]].
    - apply replaced_elem_of. left. auto.
    - apply elem_of_app. right. apply list_elem_of_here. }
  split; [reflexivity|]. split; [|split; [|split]].
  - unfold repository.FindByID.
    destruct (First_selected (gorm.WithContext (repository.db r) ctx')
                out (Some (gorm.pk e)) rows' p Hctx' Hp Hoff Hout)
      as [[Hnil _]|(x & Hres & Hx & _)].
    + exfalso.
      assert (Hs : e ∈ List.filter
                (fun x => p x && bool_decide (gorm.pk x = gorm.pk e)) rows').
      { apply filter_elem_of. split; [exact He|].
        rewrite Hpe, bool_decide_eq_true_2 by reflexivity. reflexivity. }
      rewrite Hnil in Hs. inversion Hs.
    + rewrite Hres. f_equal.
      apply filter_elem_of in Hx as [Hx Hsel].
      apply andb_true_iff in Hsel as [_ Hpk].
      apply bool_decide_eq_true in Hpk. apply Hin; assumption.
  - intros x Hne. destruct Hrows as [[_ ->]|[_ ->]].
    + rewrite replaced_elem_of. split.
      * intros [[-> _]|[Hx _]]; [contradiction|exact Hx].
      * intros Hx. right. auto.
    + rewrite elem_of_app, list_elem_of_singleton. split.
      * intros [Hx | ->]; [exact Hx|contradiction].
      * auto.
  - intros (x & Hx & Hpk). destruct Hrows as [[_ ->]|[Hnone _]].
    + apply length_map.
    + destruct (Hnone x Hx Hpk).
  - intros Hnone. destruct Hrows as [[(x & Hx & Hpk) _]|[_ ->]].
    + destruct (Hnone x Hx Hpk).
    + reflexivity.
Qed.

(** X17: no write of the repository gives two rows the same primary key.
    When the keys of the table are distinct they are distinct after
    [Create], [Update], [Delete] and [DeleteByID], whether the call
    succeeds or fails, and after [Transaction] when the unit of work keeps
    them distinct. *)
Theorem keys_stay_unique r (ctx : Context) rows :
  NoDup (gorm.pk <$> rows) ->
  (forall entity,
     NoDup (gorm.pk <$> fst (fst (repository.Create r ctx entity rows)))
     /\ NoDup (gorm.pk <$> fst (fst (repository.Update r ctx entity rows)))
     /\ NoDup (gorm.pk <$> fst (repository.Delete r ctx entity rows)))
  /\ (forall id, NoDup (gorm.pk <$> fst (repository.DeleteByID r ctx id rows)))
  /\ (forall fn,
        (forall g s, NoDup (gorm.pk <$> s) -> NoDup (gorm.pk <$> fst (fn g s))) ->
        NoDup (gorm.pk <$> fst (repository.Transaction r ctx fn rows))).
Proof.
  intros Hnd.
  assert (Hsnoc : forall row,
    (forall x, x ∈ rows -> gorm.pk x <> gorm.pk row) ->
    NoDup (gorm.pk <$> rows ++ [row])).
  { intros row Hfresh. rewrite fmap_app. apply NoDup_app.
    split; [exact Hnd|]. split; [|apply NoDup_singleton].
    intros k Hk Hk'. simpl in Hk'. apply list_elem_of_singleton in Hk'. subst k.
    apply list_elem_of_fmap in Hk as (x & Hpk & Hx).
    apply (Hfresh x Hx). congruence. }
  assert (Hcreate : forall g entity,
    NoDup (gorm.pk <$> fst (fst (gorm.Create g entity rows)))).
  { intros g entity. unfold gorm.Create.
    destruct (Err (gorm.ctx g)); [exact Hnd|].
    destruct (gorm.violated _ rows) eqn:Hv; [exact Hnd|]. simpl.
    apply Hsnoc, violated_None_pk, Hv. }
  assert (Hdelete : forall g entity conds,
    NoDup (gorm.pk <$> fst (gorm.Delete g entity conds rows))).
  { intros g entity conds. unfold gorm.Delete.
    destruct (Err (gorm.ctx g)); [exact Hnd|].
    assert (Hf : forall f, NoDup (gorm.pk <$> List.filter f rows)).
    { intros f. apply (sublist_NoDup _ (gorm.pk <$> rows)); [exact Hnd|].
      apply fmap_sublist, filter_sublist. }
    destruct (gorm.wheres g), conds, (decide (gorm.pk entity = 0));
      try exact Hnd; destruct (gorm.conds_filter _); simpl;
      first [exact Hnd | apply Hf]. }
  split; [intros entity; split; [|split]|split].
  - apply Hcreate.
  - unfold repository.Update, gorm.Save.
    destruct (decide (gorm.pk entity = 0)); [apply Hcreate|].
    destruct (Err _); [exact Hnd|].
    destruct (gorm.conds_filter _); [|exact Hnd].
    destruct (gorm.violated _ _); [exact Hnd|].
    destruct (existsb _ rows) eqn:Hex; simpl.
    + rewrite replaced_keys. exact Hnd.
    + apply Hsnoc. intros x Hx Hpk.
      assert (Ht : existsb (fun x => bool_decide (gorm.pk x = gorm.pk entity)) rows
                   = true); [|congruence].
      apply existsb_exists. exists x. split; [apply list_elem_of_In, Hx|].
      apply bool_decide_eq_true_2, Hpk.
  - apply Hdelete.
  - intros id. apply Hdelete.
  - intros fn Hfn. unfold repository.Transaction, gorm.Transaction.
    destruct (Err _); [exact Hnd|].
    specialize (Hfn (gorm.WithContext (repository.db r) ctx) rows Hnd).
    destruct (fn _ rows) as [rows' [e|]]; [exact Hnd|exact Hfn].
Qed.

(** [Paginate] on a live context through a handle without clauses, offset
    or limit of zero. *)
Lemma Paginate_live r (ctx : Context) (page pageSize : Z) rows :
  Err ctx = None -> gorm.wheres (repository.db r) = [] ->
  gorm.offset (repository.db r) <= 0 ->
  gorm.limit (repository.db r) <> Some 0 ->
  repository.Paginate r ctx page pageSize rows
  = (gorm.apply_limit (Some pageSize)
       (gorm.apply_offset (int_wrap ((page - 1) * pageSize)) rows),
     Z.of_nat (length rows), None).
Proof.
  intros Hctx Hw Hoff Hlim. unfold repository.Paginate.
  rewrite (Count_plain (gorm.Model (gorm.WithContext (repository.db r) ctx))
             rows (fun _ => true));
    [|exact Hctx|simpl; rewrite Hw; reflexivity|exact Hoff|exact Hlim].
  unfold gorm.Find. simpl. rewrite Hctx, Hw. simpl.
  rewrite int_mul_sub, !filter_all. reflexivity.
Qed.

(** X18: through a handle that carries no clauses, no offset and no limit
    of zero, and with a positive page size, pages 1 to [k] of [Paginate],
    one after the other, are the first [k * pageSize] rows of the table: the
    pages do not overlap and skip nothing.  Every page comes with the
    number of rows of the whole table, holds at most [pageSize] records,
    and is empty, without an error, once the pages before it cover the
    table. *)
Theorem Paginate_pages_cover r (ctx : Context) (pageSize : Z) (k : nat) rows :
  Err ctx = None -> gorm.wheres (repository.db r) = [] ->
  gorm.offset (repository.db r) <= 0 ->
  gorm.limit (repository.db r) <> Some 0 ->
  0 < pageSize -> Z.of_nat k * pageSize <= int_max ->
  concat (map (fun i => fst (fst (repository.Paginate r ctx
                                    (Z.of_nat (S i)) pageSize rows)))
              (seq 0 k))
    = take (k * Z.to_nat pageSize) rows
  /\ (forall i, (i < k)%nat ->
        exists entities,
          repository.Paginate r ctx (Z.of_nat (S i)) pageSize rows
            = (entities, Z.of_nat (length rows), None)
          /\ entities = take (Z.to_nat pageSize)
                          (drop (i * Z.to_nat pageSize) rows)
          /\ (length entities <= Z.to_nat pageSize)%nat
          /\ ((length rows <= i * Z.to_nat pageSize)%nat -> entities = [])).
Proof.
  intros Hctx Hw Hoff Hlim Hps Hmax.
  assert (Hpage : forall i, (i < k)%nat ->
    repository.Paginate r ctx (Z.of_nat (S i)) pageSize rows
    = (take (Z.to_nat pageSize) (drop (i * Z.to_nat pageSize) rows),
       Z.of_nat (length rows), None)).
  { intros i Hi.
    rewrite (Paginate_live r ctx _ pageSize rows Hctx Hw Hoff Hlim).
    replace (Z.of_nat (S i) - 1) with (Z.of_nat i) by lia.
    rewrite int_wrap_small.
    2: { unfold is_int, int_min. split; [lia|]. nia. }
    unfold gorm.apply_limit, gorm.apply_offset.
    destruct (Z.leb_spec 0 pageSize); [|lia].
    replace (Z.to_nat (Z.of_nat i * pageSize)) with (i * Z.to_nat pageSize)%nat
      by nia.
    destruct (Z.ltb_spec 0 (Z.of_nat i * pageSize)); [reflexivity|].
    assert (i = 0%nat) as -> by nia. reflexivity. }
  split.
  - clear Hmax. induction k as [|k IH]; [reflexivity|].
    rewrite seq_S, map_app, concat_app. simpl.
    rewrite IH by (intros i Hi; apply Hpage; lia).
    rewrite (Hpage k) by lia. simpl. rewrite app_nil_r.
    rewrite take_take_drop. f_equal. lia.
  - intros i Hi. rewrite (Hpage i Hi). eexists.
    split; [reflexivity|]. split; [reflexivity|]. split.
    + apply firstn_le_length.
    + intros Hlen. rewrite drop_ge by exact Hlen. apply take_nil.
Qed.

End RepositoryOperations.

(** ** The repository's further properties on the test fixtures *)

Section MoreOnTestUsers.

Import repository_test.

Lemma cancelled_context_aborts_witness :
  repository.Create repo cancelled john two_users
    = (two_users, john, Some Canceled)
  /\ repository.DeleteByID repo cancelled 1 two_users
     = (two_users, Some Canceled).
Proof.
  pose proof (cancelled_context_aborts repo cancelled Canceled two_users
                eq_refl) as (Hwrite & Hdel & _).
  split; [apply Hwrite|apply Hdel].
Defined.

Lemma Count_is_length_of_FindAll_witness :
  fst (repository.Count repo Background two_users)
    = Z.of_nat (length (fst (repository.FindAll repo Background two_users)))
  /\ repository.FindAll repo Background two_users = (two_users, None).
Proof.
  assert (Hoff : gorm.offset (repository.db repo) <= 0) by (simpl; lia).
  pose proof (Count_is_length_of_FindAll repo Background two_users
                eq_refl Hoff) as (Hcount & _ & Hall).
  split; [exact Hcount|]. apply Hall; reflexivity.
Defined.

Lemma FindWhere_selects_witness :
  exists found,
    repository.FindWhere repo Background "age = ?" [gorm.VInt 30] two_users
      = (found, None)
    /\ found = [bob_stored].
Proof.
  assert (Hoff : gorm.offset (repository.db repo) <= 0) by (simpl; lia).
  assert (Hf : gorm.filter_of "age = ?" [gorm.VInt 30]
               = Some (fun u => bool_decide (Age u = 30))) by reflexivity.
  destruct (FindWhere_selects repo Background "age = ?" [gorm.VInt 30]
              two_users (fun _ => true)
              (fun u => bool_decide (Age u = 30))
              eq_refl eq_refl Hf eq_refl Hoff)
    as (found & Hfound & _ & _ & Hfilter).
  exists found. split; [exact Hfound|]. rewrite Hfilter; reflexivity.
Defined.

Lemma FirstWhere_least_of_FindWhere_witness :
  (fst (repository.FindWhere repo Background "name = ?" [gorm.VStr "Bob"]
          two_users) = []
   /\ repository.FirstWhere repo Background gorm.zero "name = ?"
        [gorm.VStr "Bob"] two_users
      = (gorm.zero, Some db.ErrNotFound))
  \/ (exists x,
        repository.FirstWhere repo Background gorm.zero "name = ?"
          [gorm.VStr "Bob"] two_users = (x, None)
        /\ x ∈ fst (repository.FindWhere repo Background "name = ?"
                      [gorm.VStr "Bob"] two_users)
        /\ forall y,
             y ∈ fst (repository.FindWhere repo Background "name = ?"
                        [gorm.VStr "Bob"] two_users) ->
             gorm.pk x <= gorm.pk y).
Proof.
  assert (Hoff : gorm.offset (repository.db repo) <= 0) by (simpl; lia).
  assert (Hf : gorm.filter_of "name = ?" [gorm.VStr "Bob"]
               = Some (fun u => bool_decide (Name u = "Bob"))) by reflexivity.
  exact (FirstWhere_least_of_FindWhere repo Background "name = ?"
           [gorm.VStr "Bob"] gorm.zero two_users (fun _ => true)
           (fun u => bool_decide (Name u = "Bob"))
           eq_refl eq_refl Hf eq_refl Hoff eq_refl).
Defined.

Lemma FindByID_finds_witness :
  repository.FindByID repo Background 2 gorm.zero two_users
    = (bob_stored, None).
Proof.
  assert (Hoff : gorm.offset (repository.db repo) <= 0) by (simpl; lia).
  pose proof (FindByID_finds repo Background 2 gorm.zero two_users
                (fun _ => true) eq_refl eq_refl Hoff eq_refl)
    as (_ & _ & Hunique).
  apply Hunique.
  - simpl. apply NoDup_cons. split; [|apply NoDup_singleton].
    intros Hin. apply list_elem_of_singleton in Hin. discriminate Hin.
  - apply list_elem_of_further, list_elem_of_here.
  - reflexivity.
  - reflexivity.
Defined.

Lemma Delete_then_FindByID_not_found_witness :
  exists rows',
    repository.DeleteByID repo Background 1 two_users = (rows', None)
    /\ repository.FindByID repo Background 1 gorm.zero rows'
       = (gorm.zero, Some db.ErrNotFound).
Proof.
  pose proof (Delete_then_FindByID_not_found repo Background Background
                two_users (fun _ => true) eq_refl eq_refl eq_refl eq_refl)
    as [Hbyid _].
  destruct (Hbyid 1) as (rows' & Hdel & _ & _ & Hfind).
  exists rows'. split; [exact Hdel|apply Hfind].
Defined.

Lemma Delete_edges_witness :
  repository.DeleteByID repo Background 99999 two_users = (two_users, None)
  /\ repository.Delete repo Background john two_users
     = (two_users, Some (errorString "WHERE conditions required")).
Proof.
  pose proof (Delete_edges repo Background two_users eq_refl)
    as [Hmissing Hkeyless].
  split.
  - apply (Hmissing 99999 (fun _ => true)); [reflexivity|reflexivity|].
    intros x Hx. apply elem_of_cons in Hx as [->|Hx]; [simpl; lia|].
    apply list_elem_of_singleton in Hx. subst x. simpl. lia.
  - apply Hkeyless; reflexivity.
Defined.

Lemma Update_then_FindByID_witness :
  repository.Update repo Background jane_older two_users
    = ([jane_older; bob_stored], jane_older, None)
  /\ repository.FindByID repo Background 1 gorm.zero [jane_older; bob_stored]
     = (jane_older, None).
Proof.
  split; [reflexivity|].
  assert (Hoff : gorm.offset (repository.db repo) <= 0) by (simpl; lia).
  assert (Hkey : gorm.pk jane_older <> 0) by (simpl; lia).
  refine (proj1 (proj2 (Update_then_FindByID repo Background Background
                          jane_older jane_older gorm.zero two_users
                          [jane_older; bob_stored] (fun _ => true)
                          _ Hkey _ _ _ Hoff _))); reflexivity.
Defined.

Lemma keys_stay_unique_witness :
  NoDup (gorm.pk <$> fst (fst (repository.Create repo Background john two_users)))
  /\ NoDup (gorm.pk <$> fst (repository.DeleteByID repo Background 1 two_users)).
Proof.
  assert (Hnd : NoDup (gorm.pk <$> two_users)).
  { simpl. apply NoDup_cons. split; [|apply NoDup_singleton].
    intros Hin. apply list_elem_of_singleton in Hin. discriminate Hin. }
  pose proof (keys_stay_unique repo Background two_users Hnd)
    as (Hwrite & Hdel & _).
  split; [apply Hwrite|apply Hdel].
Defined.

Lemma Paginate_pages_cover_witness :
  concat (map (fun i => fst (fst (repository.Paginate repo Background
                                    (Z.of_nat (S i)) 5 (seeded 15))))
              (seq 0 3))
  = take (3 * Z.to_nat 5) (seeded 15).
Proof.
  apply (Paginate_pages_cover repo Background 5 3 (seeded 15)).
  - reflexivity.
  - reflexivity.
  - simpl. lia.
  - discriminate.
  - lia.
  - unfold int_max. lia.
Defined.

End MoreOnTestUsers.
